(** * Backtest: entry/exit resolution, orchestration and display formatting

    A shallow embedding of [backtest.py], [streamlit_app.py] and
    [format_results.py].

    Conventions of the embedding.
    - A pandas [Timestamp] / Python [datetime] is an integer number of
      ticks since the epoch ([timestamp := Z]); one calendar day is
      [day_ticks] ticks.  Range limits of [datetime] are not modelled.
    - A Python [float] / numpy [float64] is Rocq's primitive binary64
      [float]; the arithmetic operators are the IEEE-754 ones.
    - Python exceptions are the [Raise] case of [result].
    - Text is an ASCII [string]. *)

From Stdlib Require Import ZArith Lia List PrimFloat FloatOps SpecFloat.
From Stdlib Require Import Ascii String.
From Stdlib Require Import Sorting.Sorted Sorting.Permutation.
From stdpp Require Import gmap strings list sorting pretty.

Local Open Scope Z_scope.

(** ** Exceptions *)

Inductive exn : Type :=
| ValueError (msg : string)
| TypeError
| KeyError
| IndexError
| AttributeError
| ZeroDivisionError.

Inductive result (A : Type) : Type :=
| Ok (a : A)
| Raise (e : exn).
Arguments Ok {A} a.
Arguments Raise {A} e.

#[global] Instance result_ret : MRet result := λ A a, Ok a.

#[global] Instance result_bind : MBind result := λ A B k r,
  match r with
  | Ok a => k a
  | Raise e => Raise e
  end.

(** ** Time *)

Definition timestamp : Type := Z.

(** Ticks in one day (pandas counts nanoseconds). *)
Definition day_ticks : Z := 86400000000000.

(** [timedelta(days=n)]. *)
Definition timedelta (n : Z) : Z := n * day_ticks.

(** [t.date()], and the day printed by [t.strftime('%Y-%m-%d')]: the
    calendar day as a day number. *)
Definition date_of (t : timestamp) : Z := t `div` day_ticks.

(** ** Price frames *)

(** One row of the frame returned by [get_prices]: the index label and the
    ['Close'] cell. *)
Record bar : Type := Bar { bar_date : timestamp; bar_close : float }.

(** [hist.index] *)
Definition index (hist : list bar) : list timestamp := bar_date <$> hist.

(** What [hist.loc[label, 'Close']] evaluates to: a scalar when the label
    occurs once in the index, a Series of all matching cells otherwise. *)
Inductive cell : Type :=
| Scalar (f : float)
| SeriesOf (l : list float).

Definition loc_close (hist : list bar) (label : timestamp) : result cell :=
  match filter (λ b, bar_date b = label) hist with
  | [] => Raise KeyError
  | [b] => Ok (Scalar (bar_close b))
  | bs => Ok (SeriesOf (bar_close <$> bs))
  end.

(** Positions of [key] in an index, counted from [i]. *)
Fixpoint positions (idx : list timestamp) (key : timestamp) (i : nat) : list nat :=
  match idx with
  | [] => []
  | d :: rest =>
      if bool_decide (d = key) then i :: positions rest key (S i)
      else positions rest key (S i)
  end.

(** [Index.is_monotonic_increasing] (non-strict). *)
Fixpoint is_monotonic_increasing (idx : list timestamp) : bool :=
  match idx with
  | [] => true
  | d :: rest =>
      match rest with
      | [] => true
      | d' :: _ => (d <=? d') && is_monotonic_increasing rest
      end
  end.

(** [Index.get_loc]: an integer for a label that occurs once, a slice for
    a repeated label of a monotonic index, a boolean mask otherwise. *)
Inductive location : Type :=
| LocInt (i : nat)
| LocSlice
| LocMask.

Definition get_loc (idx : list timestamp) (key : timestamp) : result location :=
  match positions idx key 0 with
  | [] => Raise KeyError
  | [i] => Ok (LocInt i)
  | _ => Ok (if is_monotonic_increasing idx then LocSlice else LocMask)
  end.

(** [idx[i]] for a Python integer [i]: negative positions count from the
    end, anything outside raises [IndexError]. *)
Definition py_getitem {A : Type} (l : list A) (i : Z) : result A :=
  let n := Z.of_nat (length l) in
  let j := if i <? 0 then i + n else i in
  if (j <? 0) || (n <=? j) then Raise IndexError
  else match l !! Z.to_nat j with
       | Some x => Ok x
       | None => Raise IndexError
       end.

(** ** Trade resolver *)

(** The 4-tuple [(entry_date, entry_price, exit_date, exit_price)]. *)
Definition trade : Type :=
  (option timestamp * option cell * option timestamp * option cell)%type.

(** [find_entry_exit] of [backtest.py] and of [streamlit_app.py] (the two
    bodies are the same). *)
Definition find_entry_exit (hist : list bar) (signal_dt : timestamp) (days : Z)
  : result trade :=
  let hist_idx := index hist in
  let candidate := filter (λ d, signal_dt ≤ d) hist_idx in
  match candidate with
  | [] => Ok (None, None, None, None)
  | entry_date :: _ =>
      entry_loc ← get_loc hist_idx entry_date ;
      match entry_loc with
      | LocSlice => Raise TypeError  (* slice + int *)
      | LocMask => Raise (ValueError "ambiguous truth value")
      | LocInt entry_pos =>
          let exit_pos := Z.of_nat entry_pos + days in
          if bool_decide (Z.of_nat (length hist_idx) ≤ exit_pos) then
            entry_price ← loc_close hist entry_date ;
            Ok (Some entry_date, Some entry_price, None, None)
          else
            exit_date ← py_getitem hist_idx exit_pos ;
            entry_price ← loc_close hist entry_date ;
            exit_price ← loc_close hist exit_date ;
            Ok (Some entry_date, Some entry_price, Some exit_date, Some exit_price)
      end
  end.

(** ** Text helpers *)

Definition lower_ascii (c : ascii) : ascii :=
  let n := nat_of_ascii c in
  if ((65 <=? n) && (n <=? 90))%nat then ascii_of_nat (n + 32) else c.

(** [s.lower()] *)
Fixpoint lower (s : string) : string :=
  match s with
  | EmptyString => EmptyString
  | String c rest => String (lower_ascii c) (lower rest)
  end.

(** The ASCII characters [str.strip()] removes. *)
Definition is_space (c : ascii) : bool :=
  let n := nat_of_ascii c in
  (((9 <=? n) && (n <=? 13)) || ((28 <=? n) && (n <=? 32)))%nat.

Fixpoint lstrip (s : string) : string :=
  match s with
  | EmptyString => EmptyString
  | String c rest => if is_space c then lstrip rest else s
  end.

Fixpoint rstrip (s : string) : string :=
  match s with
  | EmptyString => EmptyString
  | String c rest =>
      match rstrip rest with
      | EmptyString => if is_space c then EmptyString else String c EmptyString
      | rest' => String c rest'
      end
  end.

(** [s.strip()] *)
Definition strip (s : string) : string := rstrip (lstrip s).

(** ** Column detection *)

(** [{c.lower(): c for c in df.columns}]: a later column overwrites an
    earlier one with the same lower-cased name. *)
Definition lower_map (columns : list string) : gmap string string :=
  foldl (λ cols c, <[lower c := c]> cols) ∅ columns.

(** [for name in names: if name in cols: col = cols[name]; break] *)
Fixpoint first_present (names : list string) (cols : gmap string string)
  : option string :=
  match names with
  | [] => None
  | name :: rest =>
      match cols !! name with
      | Some c => Some c
      | None => first_present rest cols
      end
  end.

Definition symbol_names : list string := ["symbol"; "stock"; "ticker"]%string.
Definition date_names : list string := ["date"; "signal_date"]%string.

Definition dquote : string := String (ascii_of_nat 34) EmptyString.

Definition detect_error : string :=
  "Could not detect symbol and date columns. Expected columns like "
  +:+ dquote +:+ "symbol" +:+ dquote +:+ " and " +:+ dquote +:+ "date" +:+ dquote.

(** ** Market data source and result rows *)

(** One row of the frame [yf.download] returns: the index label, the
    ['Close'] cell and the cells of the remaining columns. *)
Record quote : Type :=
  Quote { q_date : timestamp; q_close : float; q_others : list float }.

(** Outcome of one [yf.download] call: an exception, [None], or a frame. *)
Inductive fetched : Type :=
| FetchError
| FetchNone
| FetchFrame (df : list quote).

(** [yf.download(ticker, start=..., end=...)]: [start] and [end] are the
    days printed by [strftime('%Y-%m-%d')]; the source excludes [end]. *)
Definition downloader : Type := string → Z → Z → fetched.

(** Order of two rows by index label. *)
Definition date_le (a b : quote) : Prop := q_date a ≤ q_date b.

#[global] Instance date_le_dec : RelDecision date_le.
Proof. intros a b. unfold date_le. apply _. Defined.

(** [df.sort_index()] *)
Definition sort_index (df : list quote) : list quote :=
  merge_sort date_le df.

(** [df[['Close']]] *)
Definition close_only (df : list quote) : list bar :=
  (λ q, Bar (q_date q) (q_close q)) <$> df.

(** [[symbol + '.NS', symbol + '.BO', symbol]] *)
Definition candidates (symbol : string) : list string :=
  [symbol +:+ ".NS"; symbol +:+ ".BO"; symbol].

(** The signals table after [read_csv]: the header and, per row, the text
    of the cell under each column label. *)
Record DataFrame : Type :=
  { columns : list string; rows : list (string → string) }.

(** One dict appended to [results]. Dates are calendar days. *)
Record TradeResult : Type :=
  { symbol : string;
    signal_date : Z;
    entry_date : option Z;
    entry_price : option float;
    exit_date : option Z;
    exit_price : option float;
    return_pct : option float;
    profit : option float;
    investment : float;
    note : string }.

Definition no_price_data (sym : string) (sig_dt : timestamp) (inv : float)
  : TradeResult :=
  {| symbol := sym; signal_date := date_of sig_dt;
     entry_date := None; entry_price := None;
     exit_date := None; exit_price := None;
     return_pct := None; profit := None;
     investment := inv; note := "no price data" |}.

(** [float(x)] for the value of a ['Close'] lookup. *)
Definition to_float (c : cell) : result float :=
  match c with
  | Scalar f => Ok f
  | SeriesOf [f] => Ok f
  | SeriesOf _ => Raise TypeError
  end.

(** [float(x) if x is not None else None] *)
Definition float_or_none (o : option cell) : result (option float) :=
  match o with
  | None => Ok None
  | Some c => f ← to_float c; Ok (Some f)
  end.

(** Arithmetic between ['Close'] lookups: element-wise as soon as one
    operand is a Series. *)
Definition cell_op (op : float → float → float) (a b : cell) : cell :=
  match a, b with
  | Scalar x, Scalar y => Scalar (op x y)
  | SeriesOf xs, Scalar y => SeriesOf ((λ x, op x y) <$> xs)
  | Scalar x, SeriesOf ys => SeriesOf (op x <$> ys)
  | SeriesOf xs, SeriesOf ys => SeriesOf (zip_with op xs ys)
  end.

(** [a / b] on Python floats. *)
Definition py_div (a b : float) : result float :=
  if PrimFloat.eqb b 0 then Raise ZeroDivisionError else Ok (a / b)%float.

(** ** Number formatting *)

(** Nearest integer to [num / den] for [0 < den], ties to the even one. *)
Definition round_half_even (num den : Z) : Z :=
  let q := num `div` den in
  let r := num `mod` den in
  if bool_decide (2 * r < den) then q
  else if bool_decide (den < 2 * r) then q + 1
  else if Z.even q then q else q + 1.

Definition digit (d : Z) : ascii := ascii_of_nat (48 + Z.to_nat d).

(** Decimal text of a count of hundredths: integer part, point, two digits. *)
Definition hundredths_text (h : Z) : string :=
  pretty (Z.to_N (h `div` 100))
  +:+ String "." (String (digit ((h `mod` 100) `div` 10))
                 (String (digit (h `mod` 10)) EmptyString)).

(** ["{:.2f}".format(v)] for a float [v]: the exact binary value rounded to
    two decimals, ties to even. *)
Definition format_2f (v : float) : string :=
  match Prim2SF v with
  | S754_nan => "nan"
  | S754_infinity s => if s then "-inf" else "inf"
  | S754_zero s => if s then "-0.00" else "0.00"
  | S754_finite s m e =>
      let h := if bool_decide (0 ≤ e) then Z.pos m * 2 ^ e * 100
               else round_half_even (Z.pos m * 100) (2 ^ (- e)) in
      (if s then "-" else EmptyString) +:+ hundredths_text h
  end.

(** A cell of the results table. *)
Inductive value : Type :=
| VNone
| VFloat (f : float)
| VText (s : string).

(** [pd.isnull(v)]: [None] and NaN. *)
Definition isnull (v : value) : bool :=
  match v with
  | VNone => true
  | VFloat f => PrimFloat.is_nan f
  | VText _ => false
  end.

(** [("{:.2f}".format(v)) if pd.notnull(v) else ''] *)
Definition fmt_price (v : value) : result value :=
  if isnull v then Ok (VText EmptyString)
  else match v with
       | VFloat f => Ok (VText (format_2f f))
       | _ => Raise (ValueError "Unknown format code 'f'")
       end.

(** The magnitude rule of [fmt_pct] once [fv = float(v)] is known. *)
Definition pct_text (fv : float) : string :=
  let pct := if PrimFloat.ltb (PrimFloat.abs fv) 2 then (fv * 100)%float else fv in
  format_2f pct +:+ "%".

(** [if name in df: df[name] = df[name].apply(f)] *)
Definition apply_column (name : string) (f : value → result value)
    (df : gmap string (list value)) : result (gmap string (list value)) :=
  match df !! name with
  | None => Ok df
  | Some col => col' ← mapM f col; Ok (<[name := col']> df)
  end.

Module FormatResults.

Section WithParser.

(** [float(s)] for a text cell: [None] when it raises. *)
Variable float_of_text : string → option float.

(** [fmt_pct] of [format_results.py]. *)
Definition fmt_pct (v : value) : result value :=
  if isnull v then Ok (VText EmptyString)
  else
    let fv := match v with
              | VFloat f => Some f
              | VText s => float_of_text s
              | VNone => None
              end in
    match fv with
    | None => Ok v                       (* except Exception: return v *)
    | Some fv => Ok (VText (pct_text fv))
    end.

(** [format_csv]: the frame read from [path_in] in, the frame written out. *)
Definition format_csv (df : gmap string (list value))
  : result (gmap string (list value)) :=
  df ← apply_column "entry_price" fmt_price df;
  df ← apply_column "exit_price" fmt_price df;
  df ← apply_column "profit" fmt_price df;
  df ← apply_column "investment" fmt_price df;
  apply_column "return_pct" fmt_pct df.

End WithParser.

End FormatResults.

Module Backtest.

(** [detect_columns] of [backtest.py]. *)
Definition detect_columns (columns : list string) : result (string * string) :=
  let cols := lower_map columns in
  let symbol_col := first_present symbol_names cols in
  let date_col := first_present date_names cols in
  match symbol_col, date_col with
  | Some s, Some d => Ok (s, d)
  | _, _ => Raise (ValueError detect_error)
  end.

Section WithSource.

Variable download : downloader.

(** [pd.to_datetime(column, dayfirst=True)]: [None] when it raises. *)
Variable to_datetime : list string → option (list timestamp).

(** The [for t in candidates] loop of [get_prices]. *)
Fixpoint get_prices_from (cands : list string) (start end_ : timestamp)
  : option (list bar) :=
  match cands with
  | [] => None
  | t :: rest =>
      let df :=
        match download t (date_of start) (date_of (end_ + timedelta 1)) with
        | FetchError => None            (* except Exception: df = None *)
        | FetchNone => None
        | FetchFrame df => Some df
        end in
      match df with
      | None => get_prices_from rest start end_
      | Some [] => get_prices_from rest start end_
      | Some df => Some (close_only (sort_index df))
      end
  end.

Definition get_prices (sym : string) (start end_ : timestamp)
  : option (list bar) :=
  get_prices_from (candidates sym) start end_.

(** The dict appended for a row once [hist] is known (lines 78-118). *)
Definition build_result (sym : string) (sig_dt : timestamp) (inv : float)
    (days : Z) (hist : option (list bar)) : result TradeResult :=
  match hist with
  | None => Ok (no_price_data sym sig_dt inv)
  | Some hist =>
      '(e_date, e_price, x_date, x_price) ← find_entry_exit hist sig_dt days;
      let '(note_, ret, profit_) :=
        match e_price with
        | None => ("no entry"%string, None, None)
        | Some ep =>
            match x_price with
            | None => ("no exit (insufficient data)"%string, None, None)
            | Some xp =>
                let ret := cell_op PrimFloat.div (cell_op PrimFloat.sub xp ep) ep in
                let profit_ := cell_op PrimFloat.mul ret (Scalar inv) in
                (EmptyString, Some ret, Some profit_)
            end
        end in
      e_price_f ← float_or_none e_price;
      x_price_f ← float_or_none x_price;
      ret_f ← float_or_none ret;
      profit_f ← float_or_none profit_;
      Ok {| symbol := sym; signal_date := date_of sig_dt;
            entry_date := date_of <$> e_date; entry_price := e_price_f;
            exit_date := date_of <$> x_date; exit_price := x_price_f;
            return_pct := ret_f; profit := profit_f;
            investment := inv; note := note_ |}
  end.

(** The [for _, row in sigs.iterrows()] loop: [results] and [cache] are the
    two mutable locals. *)
Fixpoint backtest_loop (symbol_col : string) (inv : float) (days : Z)
    (todo : list ((string → string) * timestamp))
    (results : list TradeResult) (cache : gmap string (option (list bar)))
  : result (list TradeResult) :=
  match todo with
  | [] => Ok results
  | (row, sig_dt) :: rest =>
      let sym := strip (row symbol_col) in
      let cache :=
        match cache !! sym with
        | None => <[sym := None]> cache
        | Some _ => cache
        end in
      let start := sig_dt - timedelta 1 in
      let end_ := sig_dt + timedelta (days + 3) in
      let hist := get_prices sym start end_ in
      r ← build_result sym sig_dt inv days hist;
      backtest_loop symbol_col inv days rest (results ++ [r]) cache
  end.

(** [run_backtest]: the frame read from [signals_path] in, the rows written
    to [output_path] out. *)
Definition run_backtest (sigs : DataFrame) (inv : float) (days : Z)
  : result (list TradeResult) :=
  '(symbol_col, date_col) ← detect_columns (columns sigs);
  match to_datetime ((λ row, row date_col) <$> rows sigs) with
  | None => Raise (ValueError "to_datetime")
  | Some dts => backtest_loop symbol_col inv days (zip (rows sigs) dts) [] ∅
  end.

End WithSource.

End Backtest.

Module StreamlitApp.

(** [detect_columns] of [streamlit_app.py]. *)
Definition detect_columns (columns : list string)
  : option string * option string :=
  let cols := lower_map columns in
  (first_present symbol_names cols, first_present date_names cols).

(** [x.date()] where [x] may be [None]. *)
Definition date_attr (d : option timestamp) : result Z :=
  match d with
  | Some t => Ok (date_of t)
  | None => Raise AttributeError
  end.

Section WithParser.

Variable float_of_text : string → option float.

(** [fmt_pct] inside [format_results]. *)
Definition fmt_pct (v : value) : result value :=
  if isnull v then Ok (VText EmptyString)
  else
    let fv := match v with
              | VFloat f => Some f
              | VText s => float_of_text s
              | VNone => None
              end in
    match fv with
    | None => Raise (ValueError "could not convert to float")
    | Some fv => Ok (VText (pct_text fv))
    end.

(** [format_results] *)
Definition format_results (df : gmap string (list value))
  : result (gmap string (list value)) :=
  df ← apply_column "entry_price" fmt_price df;
  df ← apply_column "exit_price" fmt_price df;
  df ← apply_column "profit" fmt_price df;
  df ← apply_column "investment" fmt_price df;
  apply_column "return_pct" fmt_pct df.

End WithParser.

Section WithSource.

Variable download : downloader.
Variable to_datetime : list string → option (list timestamp).

(** [get_prices_cached]; the [st.cache_data] memo is transparent because
    [download] is a function. *)
Definition get_prices_cached (ticker : string) (start end_ : timestamp)
  : option (list bar) :=
  match download ticker (date_of start) (date_of (end_ + timedelta 1)) with
  | FetchError => None
  | FetchNone => None
  | FetchFrame [] => None
  | FetchFrame df => Some (close_only (sort_index df))
  end.

(** The [for t in candidates] loop of [get_prices_for_symbol]. *)
Fixpoint get_prices_from (cands : list string) (start end_ : timestamp)
  : option (list bar) * option string :=
  match cands with
  | [] => (None, None)
  | t :: rest =>
      match get_prices_cached t start end_ with
      | Some df => (Some df, Some t)
      | None => get_prices_from rest start end_
      end
  end.

Definition get_prices_for_symbol (sym : string) (start end_ : timestamp)
  : option (list bar) * option string :=
  get_prices_from (candidates sym) start end_.

(** The dict appended for a row once [hist] is known (lines 97-108). *)
Definition build_result (sym : string) (sig_dt : timestamp) (inv : float)
    (days : Z) (hist : option (list bar)) : result TradeResult :=
  match hist with
  | None => Ok (no_price_data sym sig_dt inv)
  | Some hist =>
      '(e_date, e_price, x_date, x_price) ← find_entry_exit hist sig_dt days;
      match e_price with
      | None =>
          Ok {| symbol := sym; signal_date := date_of sig_dt;
                entry_date := None; entry_price := None;
                exit_date := None; exit_price := None;
                return_pct := None; profit := None;
                investment := inv; note := "no entry" |}
      | Some ep =>
          match x_price with
          | None =>
              e_day ← date_attr e_date;
              e_price_f ← to_float ep;
              Ok {| symbol := sym; signal_date := date_of sig_dt;
                    entry_date := Some e_day; entry_price := Some e_price_f;
                    exit_date := None; exit_price := None;
                    return_pct := None; profit := None;
                    investment := inv;
                    note := "no exit (insufficient data)" |}
          | Some xp =>
              x_f ← to_float xp;
              e_f ← to_float ep;
              ret ← py_div (x_f - e_f)%float e_f;
              let profit_ := (ret * inv)%float in
              e_day ← date_attr e_date;
              x_day ← date_attr x_date;
              Ok {| symbol := sym; signal_date := date_of sig_dt;
                    entry_date := Some e_day; entry_price := Some e_f;
                    exit_date := Some x_day; exit_price := Some x_f;
                    return_pct := Some ret; profit := Some profit_;
                    investment := inv; note := EmptyString |}
          end
      end
  end.

(** The [for i, row in signals_df.iterrows()] loop; the progress bar is
    display only. *)
Fixpoint backtest_loop (symbol_col : string) (inv : float) (days : Z)
    (todo : list ((string → string) * timestamp))
    (results : list TradeResult) : result (list TradeResult) :=
  match todo with
  | [] => Ok results
  | (row, sig_dt) :: rest =>
      let sym := strip (row symbol_col) in
      let start := sig_dt - timedelta 1 in
      let end_ := sig_dt + timedelta (days + 3) in
      let '(hist, used) := get_prices_for_symbol sym start end_ in
      r ← build_result sym sig_dt inv days hist;
      backtest_loop symbol_col inv days rest (results ++ [r])
  end.

(** [run_backtest_df].  [raise st.error(...)] shows the message and then
    raises [TypeError], the value raised not being an exception. *)
Definition run_backtest_df (signals_df : DataFrame) (inv : float) (days : Z)
  : result (list TradeResult) :=
  match detect_columns (columns signals_df) with
  | (Some symbol_col, Some date_col) =>
      match to_datetime ((λ row, row date_col) <$> rows signals_df) with
      | None => Raise (ValueError "to_datetime")
      | Some dts =>
          backtest_loop symbol_col inv days (zip (rows signals_df) dts) []
      end
  | _ => Raise TypeError
  end.

End WithSource.

End StreamlitApp.


(** * Vocabulary of the statements *)

(** [b], at position [i], is the first bar of [hist] dated on or after
    [signal_dt]. *)
Definition first_on_or_after (hist : list bar) (signal_dt : timestamp)
    (i : nat) (b : bar) : Prop :=
  hist !! i = Some b ∧ signal_dt ≤ bar_date b ∧
  ∀ j b', (j < i)%nat → hist !! j = Some b' → bar_date b' < signal_dt.

(** Midnight of day number [d]. *)
Definition on_day (d : Z) : timestamp := d * day_ticks.

(** Bars of 2024-01-02, -03, -04, -05 and -08. *)
Definition scenario_series : list bar :=
  [ Bar (on_day 19724) 100; Bar (on_day 19725) 102; Bar (on_day 19726) 101;
    Bar (on_day 19727) 105; Bar (on_day 19730) 110 ]%float.

(** Some column equals [name] once lower-cased. *)
Definition matches (columns : list string) (name : string) : Prop :=
  ∃ c, c ∈ columns ∧ lower c = name.

(** [name] is the first of [names] that some column matches. *)
Definition first_match (names columns : list string) (name : string) : Prop :=
  ∃ k, names !! k = Some name ∧ matches columns name ∧
       ∀ j name', (j < k)%nat → names !! j = Some name' → ¬ matches columns name'.

(** What detection must answer for a list of accepted names: the last
    column spelling the first matched name, or nothing when no name is
    matched. *)
Definition detected (names columns : list string) (col : option string) : Prop :=
  match col with
  | Some c =>
      ∃ name, first_match names columns name ∧
              last (filter (λ c', lower c' = name) columns) = Some c
  | None => ∀ name, name ∈ names → ¬ matches columns name
  end.

(** The rows a download outcome contributes: an exception and [None]
    count as no rows. *)
Definition frame_of (r : fetched) : list quote :=
  match r with
  | FetchFrame df => df
  | FetchError | FetchNone => []
  end.


(** The rows of the state table. *)
Definition no_entry_row (sym : string) (sig_dt : timestamp) (inv : float)
  : TradeResult :=
  {| symbol := sym; signal_date := date_of sig_dt;
     entry_date := None; entry_price := None;
     exit_date := None; exit_price := None;
     return_pct := None; profit := None;
     investment := inv; note := "no entry" |}.

Definition no_exit_row (sym : string) (sig_dt : timestamp) (inv : float)
    (e_date : timestamp) (e_price : float) : TradeResult :=
  {| symbol := sym; signal_date := date_of sig_dt;
     entry_date := Some (date_of e_date); entry_price := Some e_price;
     exit_date := None; exit_price := None;
     return_pct := None; profit := None;
     investment := inv; note := "no exit (insufficient data)" |}.

Definition resolved_row (sym : string) (sig_dt : timestamp) (inv : float)
    (e_date : timestamp) (e_price : float)
    (x_date : timestamp) (x_price : float) : TradeResult :=
  {| symbol := sym; signal_date := date_of sig_dt;
     entry_date := Some (date_of e_date); entry_price := Some e_price;
     exit_date := Some (date_of x_date); exit_price := Some x_price;
     return_pct := Some ((x_price - e_price) / e_price)%float;
     profit := Some ((x_price - e_price) / e_price * inv)%float;
     investment := inv; note := EmptyString |}.

(** How a result row relates to the series fetched for it. *)
Inductive row_outcome (sym : string) (sig_dt : timestamp) (inv : float)
    (days : Z) : option (list bar) → TradeResult → Prop :=
| outcome_no_data :
    row_outcome sym sig_dt inv days None (no_price_data sym sig_dt inv)
| outcome_no_entry hist :
    find_entry_exit hist sig_dt days = Ok (None, None, None, None) →
    row_outcome sym sig_dt inv days (Some hist) (no_entry_row sym sig_dt inv)
| outcome_no_exit hist e_date e_price :
    find_entry_exit hist sig_dt days
    = Ok (Some e_date, Some (Scalar e_price), None, None) →
    row_outcome sym sig_dt inv days (Some hist)
      (no_exit_row sym sig_dt inv e_date e_price)
| outcome_resolved hist e_date e_price x_date x_price :
    find_entry_exit hist sig_dt days
    = Ok (Some e_date, Some (Scalar e_price),
          Some x_date, Some (Scalar x_price)) →
    row_outcome sym sig_dt inv days (Some hist)
      (resolved_row sym sig_dt inv e_date e_price x_date x_price).

(** What one pass of the loop of [run_backtest] appends for a signal. *)
Definition cli_row (download : downloader) (symbol_col : string) (inv : float)
    (days : Z) (entry : (string → string) * timestamp) : result TradeResult :=
  let sym := strip (entry.1 symbol_col) in
  Backtest.build_result sym entry.2 inv days
    (Backtest.get_prices download sym
       (entry.2 - timedelta 1) (entry.2 + timedelta (days + 3))).

(** What one pass of the loop of [run_backtest_df] appends for a signal. *)
Definition app_row (download : downloader) (symbol_col : string) (inv : float)
    (days : Z) (entry : (string → string) * timestamp) : result TradeResult :=
  let sym := strip (entry.1 symbol_col) in
  StreamlitApp.build_result sym entry.2 inv days
    (StreamlitApp.get_prices_for_symbol download sym
       (entry.2 - timedelta 1) (entry.2 + timedelta (days + 3))).1.

(** The four states of a result row. *)
Definition no_data_state (r : TradeResult) : Prop :=
  entry_date r = None ∧ entry_price r = None ∧
  exit_date r = None ∧ exit_price r = None ∧
  return_pct r = None ∧ profit r = None ∧
  note r = "no price data".

Definition no_entry_state (r : TradeResult) : Prop :=
  entry_date r = None ∧ entry_price r = None ∧
  exit_date r = None ∧ exit_price r = None ∧
  return_pct r = None ∧ profit r = None ∧
  note r = "no entry".

Definition no_exit_state (r : TradeResult) : Prop :=
  is_Some (entry_date r) ∧ is_Some (entry_price r) ∧
  exit_date r = None ∧ exit_price r = None ∧
  return_pct r = None ∧ profit r = None ∧
  note r = "no exit (insufficient data)".

Definition resolved_state (r : TradeResult) : Prop :=
  is_Some (entry_date r) ∧ is_Some (entry_price r) ∧
  is_Some (exit_date r) ∧ is_Some (exit_price r) ∧
  is_Some (return_pct r) ∧ is_Some (profit r) ∧
  note r = EmptyString.

Definition exactly_one_state (r : TradeResult) : Prop :=
  (no_data_state r ∧ ¬ no_entry_state r ∧ ¬ no_exit_state r ∧ ¬ resolved_state r) ∨
  (¬ no_data_state r ∧ no_entry_state r ∧ ¬ no_exit_state r ∧ ¬ resolved_state r) ∨
  (¬ no_data_state r ∧ ¬ no_entry_state r ∧ no_exit_state r ∧ ¬ resolved_state r) ∨
  (¬ no_data_state r ∧ ¬ no_entry_state r ∧ ¬ no_exit_state r ∧ resolved_state r).

(** ** A worked batch *)

Definition scenario_quotes : list quote :=
  [ Quote (on_day 19727) 105 []; Quote (on_day 19724) 100 [];
    Quote (on_day 19725) 102 []; Quote (on_day 19726) 101 [];
    Quote (on_day 19730) 110 [] ]%float.

(** A data source that lists ACME on the first suffix only, fails for
    FAIL and knows nothing else. *)
Definition scenario_source : downloader :=
  λ t s e,
    if decide (t = "ACME.NS") then
      FetchFrame
        (filter (λ q, s ≤ date_of (q_date q) ∧ date_of (q_date q) < e)
           scenario_quotes)
    else if decide (t = "FAIL.NS") then FetchError
    else FetchNone.

(** Day-first parsing of the three dates used below. *)
Definition scenario_to_datetime (col : list string) : option (list timestamp) :=
  Some ((λ s, if decide (s = "03-01-2024") then on_day 19725
              else if decide (s = "08-01-2024") then on_day 19730
              else on_day 19731) <$> col).

Definition scenario_row (sym day : string) : string → string :=
  λ c, if decide (c = "Ticker") then sym else day.

Definition scenario_signals : DataFrame :=
  {| columns := ["Ticker"; "Date"];
     rows := [ scenario_row " ACME " "03-01-2024";
               scenario_row "ACME" "08-01-2024";
               scenario_row "ACME" "09-01-2024";
               scenario_row "FAIL" "03-01-2024" ] |}.

Definition scenario_results : list TradeResult :=
  [ resolved_row "ACME" (on_day 19725) 1000
      (on_day 19725) 102 (on_day 19727) 105;
    no_exit_row "ACME" (on_day 19730) 1000 (on_day 19730) 110;
    no_entry_row "ACME" (on_day 19731) 1000;
    no_price_data "FAIL" (on_day 19725) 1000 ]%float.

(** ** Vocabulary of the display formatter *)

(** A cell of the raw results table: a number or nothing. *)
Definition numeric_or_null (v : value) : Prop :=
  match v with
  | VNone | VFloat _ => True
  | VText _ => False
  end.

(** A price rendered with two decimals, empty for a null. *)
Definition price_cell (v : value) : value :=
  VText match v with
        | VFloat f => if PrimFloat.is_nan f then EmptyString else format_2f f
        | _ => EmptyString
        end.

(** A return rendered as a percentage: magnitudes below 2 are fractions
    and are multiplied by 100, others are printed as they are. *)
Definition pct_cell (v : value) : value :=
  VText match v with
        | VFloat f =>
            if PrimFloat.is_nan f then EmptyString
            else format_2f (if PrimFloat.ltb (PrimFloat.abs f) 2
                            then (f * 100)%float else f) +:+ "%"
        | _ => EmptyString
        end.

(** Neither NaN nor an infinity. *)
Definition finite (f : float) : Prop :=
  match Prim2SF f with
  | S754_zero _ | S754_finite _ _ _ => True
  | S754_nan | S754_infinity _ => False
  end.

(** Text of the shape [-]digits.dd *)
Definition two_decimals (s : string) : Prop :=
  ∃ (negative : bool) (whole : N) (d1 d2 : Z),
    0 ≤ d1 ≤ 9 ∧ 0 ≤ d2 ≤ 9 ∧
    s = (if negative then "-" else EmptyString)
        +:+ pretty whole
        +:+ String "." (String (digit d1) (String (digit d2) EmptyString)).

Definition price_columns : list string :=
  ["entry_price"; "exit_price"; "profit"; "investment"].

(** A raw table and its rendering. *)
Definition scenario_table : gmap string (list value) :=
  list_to_map
    [ ("symbol", [VText "ACME"; VText "ACME"]);
      ("entry_price", [VFloat 102; VFloat 110]);
      ("exit_price", [VFloat 105; VNone]);
      ("return_pct", [VFloat 0x1.e1e1e1e1e1e1ep-6; VFloat PrimFloat.nan]);
      ("profit", [VFloat 0x1.d696969696969p+4; VNone]);
      ("investment", [VFloat 1000; VFloat 1000]) ]%float.

Definition scenario_table_formatted : gmap string (list value) :=
  list_to_map
    [ ("symbol", [VText "ACME"; VText "ACME"]);
      ("entry_price", [VText "102.00"; VText "110.00"]);
      ("exit_price", [VText "105.00"; VText EmptyString]);
      ("return_pct", [VText "2.94%"; VText EmptyString]);
      ("profit", [VText "29.41"; VText EmptyString]);
      ("investment", [VText "1000.00"; VText "1000.00"]) ].

(** ** Further example data *)

(** A series whose second date is listed twice. *)
Definition repeated_series : list bar :=
  [ Bar (on_day 19724) 100; Bar (on_day 19725) 102; Bar (on_day 19725) 103 ]%float.

(** A data source that lists one date twice for DUP and a zero close for
    ZERO, and is the scenario's otherwise. *)
Definition faulty_source : downloader :=
  λ t s e,
    if decide (t = "DUP.NS") then
      FetchFrame [ Quote (on_day 19725) 50 []; Quote (on_day 19725) 51 [] ]%float
    else if decide (t = "ZERO.NS") then
      FetchFrame [ Quote (on_day 19725) 0 []; Quote (on_day 19726) 5 [];
                   Quote (on_day 19727) 6 [] ]%float
    else scenario_source t s e.

Definition faulty_signals : DataFrame :=
  {| columns := ["Ticker"; "Date"];
     rows := [ scenario_row "ACME" "03-01-2024";
               scenario_row "DUP" "03-01-2024";
               scenario_row "ACME" "08-01-2024" ] |}.

Definition zero_signals : DataFrame :=
  {| columns := ["Ticker"; "Date"];
     rows := [ scenario_row "ACME" "03-01-2024";
               scenario_row "ZERO" "03-01-2024" ] |}.

(** A fully resolved row whose entry price is zero. *)
Definition zero_entry (r : TradeResult) : Prop :=
  resolved_state r ∧
  ∃ e_price, entry_price r = Some e_price ∧ PrimFloat.eqb e_price 0 = true.

(** The five column updates shared by [format_csv] and [format_results],
    for the return formatter [g]. *)
Definition format_with (g : value → result value)
    (df : gmap string (list value)) : result (gmap string (list value)) :=
  df ← apply_column "entry_price" fmt_price df;
  df ← apply_column "exit_price" fmt_price df;
  df ← apply_column "profit" fmt_price df;
  df ← apply_column "investment" fmt_price df;
  apply_column "return_pct" g df.

(** A column before and after [f] is applied to each of its cells. *)
Definition column_mapped (f : value → result value)
    (before after : option (list value)) : Prop :=
  option_Forall2 (Forall2 (λ v v', f v = Ok v')) before after.

Definition is_text (v : value) : Prop := ∃ s, v = VText s.

(** The four price columns hold numbers or nulls only. *)
Definition prices_numeric (df : gmap string (list value)) : Prop :=
  ∀ name col, name ∈ price_columns → df !! name = Some col →
    Forall numeric_or_null col.

(** A table whose return column was formatted before. *)
Definition reformatted_table : gmap string (list value) :=
  list_to_map
    [ ("entry_price", [VFloat 102; VNone]);
      ("return_pct", [VText "2.94%"; VNone]) ]%float.

(** ** Vocabulary for trimmed text *)

Definition first_char (s : string) : option ascii :=
  match s with
  | EmptyString => None
  | String c _ => Some c
  end.

Fixpoint last_char (s : string) : option ascii :=
  match s with
  | EmptyString => None
  | String c rest =>
      match last_char rest with
      | None => Some c
      | Some d => Some d
      end
  end.

Fixpoint all_space (s : string) : bool :=
  match s with
  | EmptyString => true
  | String c rest => is_space c && all_space rest
  end.

(** Text that neither starts nor ends with whitespace. *)
Definition trimmed (s : string) : Prop :=
  (∀ c, first_char s = Some c → is_space c = false) ∧
  (∀ c, last_char s = Some c → is_space c = false).

(** * Properties *)

(** ** The entry bar *)

Lemma first_on_or_after_split hist signal_dt i b :
  first_on_or_after hist signal_dt i b →
  ∃ pre post, hist = pre ++ b :: post ∧ length pre = i ∧
    Forall (λ b', bar_date b' < signal_dt) pre.
Proof.
  intros (Hi & _ & Hbefore).
  exists (take i hist), (drop (S i) hist). split_and!.
  - by rewrite take_drop_middle.
  - apply length_take_le. apply lookup_lt_Some in Hi. lia.
  - apply Forall_lookup_2. intros j b' Hj.
    apply lookup_take_Some in Hj as [Hj Hlt]. eauto.
Qed.

Lemma candidate_none hist signal_dt :
  Forall (λ b, bar_date b < signal_dt) hist →
  filter (λ d, signal_dt ≤ d) (index hist) = [].
Proof.
  induction 1 as [|b hist Hb _ IH]; [done|].
  unfold index in *. rewrite fmap_cons, filter_cons_False by lia. done.
Qed.

Lemma candidate_split pre b post signal_dt :
  Forall (λ b', bar_date b' < signal_dt) pre → signal_dt ≤ bar_date b →
  filter (λ d, signal_dt ≤ d) (index (pre ++ b :: post))
  = bar_date b :: filter (λ d, signal_dt ≤ d) (index post).
Proof.
  intros Hpre Hb. unfold index. rewrite fmap_app, filter_app.
  fold (index pre). rewrite candidate_none by done.
  rewrite fmap_cons, filter_cons_True by done. done.
Qed.

(** Every series either has no bar on or after the signal, or splits at
    the first such bar. *)
Lemma entry_cases hist signal_dt :
  Forall (λ b, bar_date b < signal_dt) hist ∨
  ∃ i b, first_on_or_after hist signal_dt i b.
Proof.
  induction hist as [|b hist IH]; [by left|].
  destruct (decide (signal_dt ≤ bar_date b)) as [Hb|Hb].
  - right. exists 0%nat, b. split_and!; [done|done|]. intros j b' Hj. lia.
  - destruct IH as [IH|(i & b' & Hi & Hle & Hbefore)].
    + left. constructor; [lia|done].
    + right. exists (S i), b'. split_and!; [done|done|].
      intros [|j] b'' Hj Hlook; simplify_eq/=; [lia|].
      eapply Hbefore; [|done]. lia.
Qed.

(** ** Positions and label lookups *)

Lemma positions_absent idx key i : key ∉ idx → positions idx key i = [].
Proof.
  revert i. induction idx as [|d idx IH]; intros i Hnot; [done|].
  apply not_elem_of_cons in Hnot as [Hne Hnot]. simpl.
  rewrite bool_decide_eq_false_2 by done. by apply IH.
Qed.

Lemma positions_app l1 l2 key i :
  positions (l1 ++ l2) key i
  = positions l1 key i ++ positions l2 key (i + length l1)%nat.
Proof.
  revert i. induction l1 as [|d l1 IH]; intros i; simpl.
  - by rewrite Nat.add_0_r.
  - rewrite IH. replace (S i + length l1)%nat with (i + S (length l1))%nat by lia.
    by destruct (bool_decide (d = key)).
Qed.

Lemma positions_unique pre key post :
  key ∉ pre → key ∉ post →
  positions (pre ++ key :: post) key 0 = [length pre].
Proof.
  intros Hpre Hpost. rewrite positions_app. simpl.
  rewrite bool_decide_eq_true_2 by done.
  by rewrite !positions_absent.
Qed.

Lemma get_loc_unique pre key post :
  key ∉ pre → key ∉ post →
  get_loc (pre ++ key :: post) key = Ok (LocInt (length pre)).
Proof. intros. unfold get_loc. by rewrite positions_unique. Qed.

Lemma filter_label_absent (hist : list bar) label :
  label ∉ index hist → filter (λ b, bar_date b = label) hist = [].
Proof.
  induction hist as [|b hist IH]; [done|]. unfold index in *.
  rewrite fmap_cons. intros [Hne Hnot]%not_elem_of_cons.
  rewrite filter_cons_False by done. by apply IH.
Qed.

Lemma loc_close_unique pre b post :
  bar_date b ∉ index pre → bar_date b ∉ index post →
  loc_close (pre ++ b :: post) (bar_date b) = Ok (Scalar (bar_close b)).
Proof.
  intros Hpre Hpost. unfold loc_close.
  rewrite filter_app, filter_cons_True by done.
  by rewrite !filter_label_absent.
Qed.

Lemma loc_close_lookup hist i b :
  NoDup (index hist) → hist !! i = Some b →
  loc_close hist (bar_date b) = Ok (Scalar (bar_close b)).
Proof.
  intros Hnd Hi.
  rewrite <- (take_drop_middle hist i b Hi) in Hnd |- *.
  unfold index in Hnd. rewrite fmap_app, fmap_cons in Hnd.
  apply NoDup_app in Hnd as (_ & Hdisj & [Hpost _]%NoDup_cons).
  apply loc_close_unique; [|done].
  intros Hin. apply (Hdisj _ Hin). left.
Qed.

Lemma py_getitem_nonneg {A} (l : list A) i x :
  l !! i = Some x → py_getitem l (Z.of_nat i) = Ok x.
Proof.
  intros Hi. pose proof (lookup_lt_Some _ _ _ Hi). unfold py_getitem.
  cbv zeta. destruct (Z.ltb_spec (Z.of_nat i) 0); [lia|].
  destruct (Z.ltb_spec (Z.of_nat i) 0); [lia|].
  destruct (Z.leb_spec (Z.of_nat (length l)) (Z.of_nat i)); [lia|].
  simpl. by rewrite Nat2Z.id, Hi.
Qed.

Lemma bind_Ok {A B} (a : A) (k : A → result B) : (Ok a ≫= k) = k a.
Proof. reflexivity. Qed.

Lemma bind_Raise {A B} e (k : A → result B) : (Raise e ≫= k) = Raise e.
Proof. reflexivity. Qed.

(** Resolve the binds whose first computation is already a value or an
    exception. *)
Ltac bind_step := rewrite ?bind_Ok, ?bind_Raise.

Lemma before_signal_absent pre signal_dt d :
  Forall (λ b', bar_date b' < signal_dt) pre → signal_dt ≤ d → d ∉ index pre.
Proof.
  intros Hpre Hd (b' & -> & Hin)%list_elem_of_fmap.
  rewrite Forall_forall in Hpre. specialize (Hpre _ Hin). simpl in Hpre. lia.
Qed.

(** ** What [find_entry_exit] returns *)

Lemma find_entry_exit_no_entry hist signal_dt days :
  Forall (λ b, bar_date b < signal_dt) hist →
  find_entry_exit hist signal_dt days = Ok (None, None, None, None).
Proof. intros H. unfold find_entry_exit. by rewrite candidate_none. Qed.

(** With the entry bar [b] at the end of [pre] and its label not repeated
    later, the function reduces to its exit test. *)
Lemma find_entry_exit_entry pre b post signal_dt days :
  Forall (λ b', bar_date b' < signal_dt) pre → signal_dt ≤ bar_date b →
  bar_date b ∉ index post →
  let hist := pre ++ b :: post in
  find_entry_exit hist signal_dt days =
    let exit_pos := Z.of_nat (length pre) + days in
    if bool_decide (Z.of_nat (length hist) ≤ exit_pos) then
      Ok (Some (bar_date b), Some (Scalar (bar_close b)), None, None)
    else
      exit_date ← py_getitem (index hist) exit_pos;
      exit_price ← loc_close hist exit_date;
      Ok (Some (bar_date b), Some (Scalar (bar_close b)),
          Some exit_date, Some exit_price).
Proof.
  intros Hpre Hb Hpost hist.
  assert (bar_date b ∉ index pre) as Habs by by eapply before_signal_absent.
  unfold find_entry_exit. cbv zeta. subst hist.
  rewrite candidate_split by done.
  replace (index (pre ++ b :: post)) with (index pre ++ bar_date b :: index post)
    by (unfold index; by rewrite fmap_app).
  rewrite get_loc_unique, bind_Ok by done.
  replace (length (index pre)) with (length pre) by (unfold index; by rewrite length_fmap).
  replace (length (index pre ++ bar_date b :: index post))
    with (length (pre ++ b :: post))
    by (unfold index; rewrite !length_app; simpl; by rewrite !length_fmap).
  rewrite loc_close_unique by done.
  case_bool_decide; [done|].
  destruct (py_getitem _ _); [|done]. by rewrite !bind_Ok.
Qed.

Lemma find_entry_exit_no_exit hist signal_dt days i b :
  NoDup (index hist) → first_on_or_after hist signal_dt i b →
  Z.of_nat (length hist) ≤ Z.of_nat i + days →
  find_entry_exit hist signal_dt days
  = Ok (Some (bar_date b), Some (Scalar (bar_close b)), None, None).
Proof.
  intros Hnd Hfirst Hlen.
  destruct (first_on_or_after_split _ _ _ _ Hfirst) as (pre & post & -> & <- & Hpre).
  destruct Hfirst as (_ & Hb & _).
  unfold index in Hnd. rewrite fmap_app, fmap_cons in Hnd.
  apply NoDup_app in Hnd as (_ & _ & [Hpost _]%NoDup_cons).
  rewrite find_entry_exit_entry by done. cbv zeta.
  by rewrite bool_decide_eq_true_2.
Qed.

Lemma find_entry_exit_full hist signal_dt days i b b' :
  NoDup (index hist) → first_on_or_after hist signal_dt i b →
  0 ≤ days → hist !! (i + Z.to_nat days)%nat = Some b' →
  find_entry_exit hist signal_dt days
  = Ok (Some (bar_date b), Some (Scalar (bar_close b)),
        Some (bar_date b'), Some (Scalar (bar_close b'))).
Proof.
  intros Hnd Hfirst Hdays Hexit.
  pose proof (loc_close_lookup _ _ _ Hnd Hexit) as Hloc.
  pose proof (lookup_lt_Some _ _ _ Hexit) as Hlt.
  destruct (first_on_or_after_split _ _ _ _ Hfirst) as (pre & post & -> & <- & Hpre).
  destruct Hfirst as (_ & Hb & _).
  unfold index in Hnd. rewrite fmap_app, fmap_cons in Hnd.
  apply NoDup_app in Hnd as (_ & _ & [Hpost _]%NoDup_cons).
  rewrite find_entry_exit_entry by done. cbv zeta.
  rewrite bool_decide_eq_false_2 by lia.
  replace (Z.of_nat (length pre) + days) with (Z.of_nat (length pre + Z.to_nat days)) by lia.
  erewrite py_getitem_nonneg; [|unfold index; by rewrite list_lookup_fmap, Hexit].
  by rewrite bind_Ok, Hloc, bind_Ok.
Qed.

Lemma strictly_increasing_lookup (l : list Z) i j a b :
  StronglySorted Z.lt l → l !! i = Some a → l !! j = Some b → (i < j)%nat →
  a < b.
Proof.
  intros Hs. revert i j. induction Hs as [|x l Hs IH Hall]; intros i j Hi Hj Hlt.
  - by rewrite lookup_nil in Hi.
  - destruct j as [|j]; [lia|]. destruct i as [|i]; simplify_eq/=.
    + eapply Forall_lookup_1 in Hall; done.
    + eapply IH; [done..|lia].
Qed.

Lemma strictly_increasing_NoDup (l : list Z) : StronglySorted Z.lt l → NoDup l.
Proof.
  induction 1 as [|x l Hs IH Hall]; constructor; [|done].
  intros Hin. rewrite Forall_forall in Hall. specialize (Hall _ Hin). lia.
Qed.

(** Any value returned by [find_entry_exit] has either no field set, or the
    entry fields set. *)
Lemma find_entry_exit_shape hist signal_dt days e_date e_price x_date x_price :
  find_entry_exit hist signal_dt days = Ok (e_date, e_price, x_date, x_price) →
  (e_date = None ∧ e_price = None ∧ x_date = None ∧ x_price = None) ∨
  (is_Some e_date ∧ is_Some e_price ∧ (is_Some x_date ↔ is_Some x_price)).
Proof.
  unfold find_entry_exit. cbv zeta.
  destruct (filter _ _) as [|entry_date ?]; [intros; simplify_eq; by left|].
  destruct (get_loc _ _) as [[entry_pos| |]|]; bind_step; try done.
  case_bool_decide.
  - destruct (loc_close _ _); bind_step; [|done].
    intros; simplify_eq. right. split_and!; eauto. done.
  - destruct (py_getitem _ _); bind_step; [|done].
    destruct (loc_close _ entry_date); bind_step; [|done].
    destruct (loc_close _ _); bind_step; [|done].
    intros; simplify_eq. right. split_and!; eauto. split; eauto.
Qed.

(** C1. The entry is the first bar dated on or after the signal; with no
    such bar all four outputs are null, for every series; a signal before
    every bar of a non-empty series enters at the first bar.  Where an entry
    is returned the series has no repeated date and the holding period is
    not negative. *)
Theorem find_entry_exit_entry_rule hist signal_dt days :
  (Forall (λ b, bar_date b < signal_dt) hist →
     find_entry_exit hist signal_dt days = Ok (None, None, None, None)) ∧
  (NoDup (index hist) → 0 ≤ days →
   (∀ i b, first_on_or_after hist signal_dt i b →
      ∃ x_date x_price,
        find_entry_exit hist signal_dt days
        = Ok (Some (bar_date b), Some (Scalar (bar_close b)), x_date, x_price)) ∧
   (∀ b rest, hist = b :: rest →
      Forall (λ b', signal_dt < bar_date b') hist →
      ∃ x_date x_price,
        find_entry_exit hist signal_dt days
        = Ok (Some (bar_date b), Some (Scalar (bar_close b)), x_date, x_price))).
Proof.
  split; [apply find_entry_exit_no_entry|]. intros Hnd Hdays.
  assert (∀ i b, first_on_or_after hist signal_dt i b →
     ∃ x_date x_price,
       find_entry_exit hist signal_dt days
       = Ok (Some (bar_date b), Some (Scalar (bar_close b)), x_date, x_price))
    as Hentry.
  { intros i b Hfirst.
    destruct (hist !! (i + Z.to_nat days)%nat) as [b'|] eqn:Hexit.
    - eexists _, _. by eapply find_entry_exit_full.
    - eexists _, _. eapply find_entry_exit_no_exit; [done..|].
      apply lookup_ge_None in Hexit. lia. }
  split; [done|].
  intros b rest -> Hall. apply (Hentry 0%nat).
  split_and!; [done| |intros j ? Hj; lia].
  apply Forall_cons in Hall as [Hb _]. lia.
Qed.

Lemma find_entry_exit_entry_rule_witness :
  NoDup (index scenario_series) ∧ 0 ≤ 2 ∧
  find_entry_exit scenario_series (on_day 19720) 2
  = Ok (Some (on_day 19724), Some (Scalar 100%float),
        Some (on_day 19726), Some (Scalar 101%float)).
Proof.
  assert (NoDup (index scenario_series)) as Hnd
    by (apply (bool_decide_unpack _); vm_compute; exact I).
  split_and!; [done|lia|].
  destruct (find_entry_exit_entry_rule scenario_series (on_day 19720) 2)
    as (_ & Hentry).
  destruct (Hentry Hnd) as (_ & Hfirst); [lia|].
  destruct (Hfirst (Bar (on_day 19724) 100%float) (tail scenario_series))
    as (x_date & x_price & Heq); [reflexivity| |].
  - repeat constructor.
  - vm_compute. reflexivity.
Defined.

(** The two outcomes once an entry bar exists. *)
Lemma find_entry_exit_exit_rule_aux hist signal_dt days i b :
  NoDup (index hist) → 0 ≤ days → first_on_or_after hist signal_dt i b →
  find_entry_exit hist signal_dt days
  = Ok (Some (bar_date b), Some (Scalar (bar_close b)), None, None) ∨
  ∃ b', hist !! (i + Z.to_nat days)%nat = Some b' ∧
    find_entry_exit hist signal_dt days
    = Ok (Some (bar_date b), Some (Scalar (bar_close b)),
          Some (bar_date b'), Some (Scalar (bar_close b'))).
Proof.
  intros Hnd Hdays Hfirst.
  destruct (hist !! (i + Z.to_nat days)%nat) as [b'|] eqn:Hexit.
  - right. exists b'. split; [done|]. by eapply find_entry_exit_full.
  - left. eapply find_entry_exit_no_exit; [done..|].
    apply lookup_ge_None in Hexit. lia.
Qed.

(** C2, as stated, fails where the exit position equals the series length:
    the last bar of the five-bar series is the entry (position 4), the
    holding period is 1, and 4 + 1 does not exceed 5, yet there is no exit. *)
Lemma exit_rule_boundary_counterexample :
  first_on_or_after scenario_series (on_day 19730) 4 (Bar (on_day 19730) 110%float) ∧
  find_entry_exit scenario_series (on_day 19730) 1
  = Ok (Some (on_day 19730), Some (Scalar 110%float), None, None) ∧
  ¬ (Z.of_nat (length scenario_series) < 4 + 1).
Proof.
  split_and!.
  - split_and!; [reflexivity|reflexivity|].
    intros j b' Hj Hlook.
    do 4 (destruct j as [|j]; [simplify_eq/=; vm_compute; reflexivity|]). lia.
  - vm_compute. reflexivity.
  - simpl. lia.
Qed.

(** C2, amended. With the entry bar at position [i], the exit bar is the bar
    at position [i + days] of the series, and the trade has an entry but no
    exit exactly when [i + days] reaches or exceeds the series length (is
    past the last position). *)
Theorem find_entry_exit_exit_rule hist signal_dt days i b :
  NoDup (index hist) → 0 ≤ days → first_on_or_after hist signal_dt i b →
  ∃ x_date x_price,
    find_entry_exit hist signal_dt days
    = Ok (Some (bar_date b), Some (Scalar (bar_close b)), x_date, x_price) ∧
    (x_date = None ∧ x_price = None
     ↔ Z.of_nat (length hist) ≤ Z.of_nat i + days) ∧
    (Z.of_nat i + days < Z.of_nat (length hist) →
     ∃ b', hist !! (i + Z.to_nat days)%nat = Some b' ∧
           x_date = Some (bar_date b') ∧
           x_price = Some (Scalar (bar_close b'))).
Proof.
  intros Hnd Hdays Hfirst.
  destruct (hist !! (i + Z.to_nat days)%nat) as [b'|] eqn:Hexit.
  - pose proof (lookup_lt_Some _ _ _ Hexit).
    eexists _, _. split_and!; [by eapply find_entry_exit_full| |by eauto].
    split; [by intros []|lia].
  - pose proof (proj1 (lookup_ge_None _ _) Hexit).
    eexists _, _. split_and!; [eapply find_entry_exit_no_exit; [done..|lia]| |lia].
    split; [lia|done].
Qed.

Lemma find_entry_exit_exit_rule_witness :
  NoDup (index scenario_series) ∧ 0 ≤ 2 ∧
  first_on_or_after scenario_series (on_day 19725) 1 (Bar (on_day 19725) 102%float) ∧
  ∃ x_date x_price,
    find_entry_exit scenario_series (on_day 19725) 2
    = Ok (Some (on_day 19725), Some (Scalar 102%float), x_date, x_price) ∧
    (x_date = None ∧ x_price = None ↔ 5 ≤ 1 + 2) ∧
    (1 + 2 < 5 →
     ∃ b', scenario_series !! 3%nat = Some b' ∧
           x_date = Some (bar_date b') ∧
           x_price = Some (Scalar (bar_close b'))).
Proof.
  assert (NoDup (index scenario_series)) as Hnd
    by (apply (bool_decide_unpack _); vm_compute; exact I).
  assert (first_on_or_after scenario_series (on_day 19725) 1
            (Bar (on_day 19725) 102%float)) as Hfirst.
  { split_and!; [reflexivity|reflexivity|].
    intros j b' Hj Hlook. destruct j as [|j]; [|lia].
    simplify_eq/=. vm_compute. reflexivity. }
  split_and!; [done|lia|done|].
  apply (find_entry_exit_exit_rule scenario_series (on_day 19725) 2 1
           (Bar (on_day 19725) 102%float) Hnd); [lia|done].
Defined.

(** C10. An exit is never returned without an entry; on a series with
    strictly increasing dates and a holding period of at least 1, a returned
    exit date is strictly later than the entry date, which is on or after
    the signal date. *)
Theorem find_entry_exit_exit_after_entry
    hist signal_dt days e_date e_price x_date x_price :
  find_entry_exit hist signal_dt days = Ok (e_date, e_price, x_date, x_price) →
  (is_Some x_date ∨ is_Some x_price → is_Some e_date ∧ is_Some e_price) ∧
  (StronglySorted Z.lt (index hist) → 1 ≤ days →
   ∀ x, x_date = Some x → ∃ e, e_date = Some e ∧ signal_dt ≤ e ∧ e < x).
Proof.
  intros Hret. split.
  - destruct (find_entry_exit_shape _ _ _ _ _ _ _ Hret)
      as [(_ & _ & -> & ->)|(? & ? & _)]; [|done].
    intros [[? ?]|[? ?]]; done.
  - intros Hsorted Hdays x ->.
    pose proof (strictly_increasing_NoDup _ Hsorted) as Hnd.
    destruct (entry_cases hist signal_dt) as [Hnone|(i & b & Hfirst)].
    { rewrite find_entry_exit_no_entry in Hret by done. simplify_eq. }
    destruct (find_entry_exit_exit_rule_aux hist signal_dt days i b Hnd
                ltac:(lia) Hfirst) as [Hno|(b' & Hlook & Hfull)].
    { rewrite Hno in Hret. simplify_eq. }
    rewrite Hfull in Hret. simplify_eq.
    exists (bar_date b). split_and!; [done|by destruct Hfirst as (_ & ? & _)|].
    destruct Hfirst as (Hi & _ & _).
    eapply (strictly_increasing_lookup (index hist) i (i + Z.to_nat days)%nat);
      [done|unfold index; by rewrite list_lookup_fmap, Hi
           |unfold index; by rewrite list_lookup_fmap, Hlook|lia].
Qed.

Lemma find_entry_exit_exit_after_entry_witness :
  find_entry_exit scenario_series (on_day 19725) 2
  = Ok (Some (on_day 19725), Some (Scalar 102%float),
        Some (on_day 19727), Some (Scalar 105%float)) ∧
  StronglySorted Z.lt (index scenario_series) ∧ 1 ≤ 2 ∧
  (is_Some (Some (on_day 19727)) ∨ is_Some (Some (Scalar 105%float)) →
   is_Some (Some (on_day 19725)) ∧ is_Some (Some (Scalar 102%float))) ∧
  ∃ e, Some (on_day 19725) = Some e ∧ on_day 19725 ≤ e ∧ e < on_day 19727.
Proof.
  assert (find_entry_exit scenario_series (on_day 19725) 2
          = Ok (Some (on_day 19725), Some (Scalar 102%float),
                Some (on_day 19727), Some (Scalar 105%float))) as Hret
    by (vm_compute; reflexivity).
  assert (StronglySorted Z.lt (index scenario_series)) as Hsorted
    by (repeat constructor).
  destruct (find_entry_exit_exit_after_entry _ _ _ _ _ _ _ Hret) as [Hentry Horder].
  split_and!; [done|done|lia|done|].
  apply (Horder Hsorted); [lia|reflexivity].
Defined.

(** ** Column detection *)

Lemma lower_map_snoc columns c :
  lower_map (columns ++ [c]) = <[lower c := c]> (lower_map columns).
Proof. unfold lower_map. by rewrite foldl_snoc. Qed.

Lemma lower_map_lookup columns name :
  lower_map columns !! name = last (filter (λ c, lower c = name) columns).
Proof.
  induction columns as [|c columns IH] using rev_ind; [done|].
  rewrite lower_map_snoc, filter_app, lookup_insert.
  case_decide as Hc.
  - by rewrite filter_cons_True, filter_nil, last_snoc.
  - by rewrite filter_cons_False, filter_nil, app_nil_r.
Qed.

Lemma lower_map_matches columns name :
  is_Some (lower_map columns !! name) ↔ matches columns name.
Proof.
  rewrite lower_map_lookup, last_is_Some. split.
  - intros Hne. destruct (filter _ columns) as [|c l] eqn:Hf; [done|].
    assert (c ∈ filter (λ c, lower c = name) columns) as Hin
      by (rewrite Hf; left).
    apply list_elem_of_filter in Hin as [? ?]. by exists c.
  - intros (c & Hin & Hc) Hnil.
    eapply filter_nil_not_elem_of; [exact Hnil|exact Hc|exact Hin].
Qed.

Lemma first_present_detected names columns :
  detected names columns (first_present names (lower_map columns)).
Proof.
  induction names as [|name names IH]; simpl.
  - intros name Hin. by apply elem_of_nil in Hin.
  - destruct (lower_map columns !! name) as [c|] eqn:Hlook.
    + exists name. split; [|by rewrite <- lower_map_lookup].
      exists 0%nat. split_and!; [done| |intros; lia].
      apply lower_map_matches. by eexists.
    + assert (¬ matches columns name) as Hno.
      { rewrite <- lower_map_matches, Hlook. by intros []. }
      destruct (first_present names (lower_map columns)) as [c|]; simpl in *.
      * destruct IH as (name' & (k & Hk & Hm & Hbefore) & Hlast).
        exists name'. split; [|done].
        exists (S k). split_and!; [done..|].
        intros [|j] name'' Hj Hlook'; simplify_eq/=; [done|].
        eapply Hbefore; [|done]. lia.
      * intros name' [->|Hin]%elem_of_cons; [done|by apply IH].
Qed.

(** C7. Column names are matched case-insensitively; the symbol column is
    found through the first of "symbol", "stock", "ticker" that is present
    and the date column through the first of "date", "signal_date"; when
    either is missing both front ends raise, whatever the rows and the data
    source are, so no row is processed. *)
Theorem detect_columns_rule cols symbol_col date_col :
  StreamlitApp.detect_columns cols = (symbol_col, date_col) →
  detected ["symbol"; "stock"; "ticker"] cols symbol_col ∧
  detected ["date"; "signal_date"] cols date_col ∧
  Backtest.detect_columns cols
  = match symbol_col, date_col with
    | Some s, Some d => Ok (s, d)
    | _, _ => Raise (ValueError detect_error)
    end ∧
  (symbol_col = None ∨ date_col = None →
   ∀ download to_datetime rows_ inv days,
     Backtest.run_backtest download to_datetime
       {| columns := cols; rows := rows_ |} inv days
     = Raise (ValueError detect_error) ∧
     StreamlitApp.run_backtest_df download to_datetime
       {| columns := cols; rows := rows_ |} inv days
     = Raise TypeError).
Proof.
  unfold StreamlitApp.detect_columns. intros Hdet.
  assert (symbol_col = first_present symbol_names (lower_map cols)) as ->
    by congruence.
  assert (date_col = first_present date_names (lower_map cols)) as ->
    by congruence.
  clear Hdet. split_and!.
  - apply first_present_detected.
  - apply first_present_detected.
  - reflexivity.
  - intros Hmissing download to_datetime rows_ inv days.
    unfold Backtest.run_backtest, StreamlitApp.run_backtest_df,
      Backtest.detect_columns, StreamlitApp.detect_columns.
    cbn [columns] in *.
    destruct Hmissing as [Hs|Hd]; [by rewrite Hs|rewrite Hd].
    destruct (first_present symbol_names (lower_map cols)); split; reflexivity.
Qed.

Lemma detect_columns_rule_witness :
  StreamlitApp.detect_columns ["Price"; "TICKER"; "Signal_Date"; "Ticker"]
  = (Some "Ticker", Some "Signal_Date") ∧
  detected ["symbol"; "stock"; "ticker"]
    ["Price"; "TICKER"; "Signal_Date"; "Ticker"] (Some "Ticker") ∧
  Backtest.detect_columns ["Price"; "TICKER"; "Signal_Date"; "Ticker"]
  = Ok ("Ticker", "Signal_Date").
Proof.
  assert (StreamlitApp.detect_columns ["Price"; "TICKER"; "Signal_Date"; "Ticker"]
          = (Some "Ticker", Some "Signal_Date")) as Hdet
    by (vm_compute; reflexivity).
  destruct (detect_columns_rule _ _ _ Hdet) as (Hsym & _ & Hcli & _).
  split_and!; done.
Defined.

(** ** Price series provider *)

#[local] Instance date_le_total : Total date_le.
Proof. intros a b. unfold date_le. lia. Qed.

#[local] Instance date_le_trans : Transitive date_le.
Proof. intros a b c. unfold date_le. lia. Qed.

Lemma index_close_only df : index (close_only df) = q_date <$> df.
Proof. unfold index, close_only. rewrite <- list_fmap_compose. done. Qed.

Lemma served_sorted df :
  StronglySorted Z.le (index (close_only (sort_index df))).
Proof.
  rewrite index_close_only.
  apply (StronglySorted_fmap q_date date_le Z.le); [by intros a b|].
  apply StronglySorted_merge_sort; apply _.
Qed.


Section Provider.

Variable download : downloader.
Variables start end_ : timestamp.

(** The request sent for ticker [t]. *)
Let fetch (t : string) : fetched :=
  download t (date_of start) (date_of (end_ + timedelta 1)).

Lemma get_prices_from_cons t rest :
  Backtest.get_prices_from download (t :: rest) start end_
  = if decide (frame_of (fetch t) = [])
    then Backtest.get_prices_from download rest start end_
    else Some (close_only (sort_index (frame_of (fetch t)))).
Proof.
  simpl. fold (fetch t). destruct (fetch t) as [| |[|q df]]; done.
Qed.

Lemma app_get_prices_from_cons t rest :
  StreamlitApp.get_prices_from download (t :: rest) start end_
  = if decide (frame_of (fetch t) = [])
    then StreamlitApp.get_prices_from download rest start end_
    else (Some (close_only (sort_index (frame_of (fetch t)))), Some t).
Proof.
  simpl. unfold StreamlitApp.get_prices_cached. fold (fetch t).
  destruct (fetch t) as [| |[|q df]]; done.
Qed.

End Provider.



(** ** One result row *)

Lemma loc_close_cases hist label c :
  loc_close hist label = Ok c →
  (∃ f, c = Scalar f) ∨ (∃ l, c = SeriesOf l ∧ (2 ≤ length l)%nat).
Proof.
  unfold loc_close. destruct (filter _ hist) as [|b [|b' bs]]; intros; simplify_eq.
  - left. by eexists.
  - right. eexists. split; [done|]. simpl. lia.
Qed.

Lemma positions_length (hist : list bar) key i :
  length (positions (index hist) key i)
  = length (filter (λ b, bar_date b = key) hist).
Proof.
  revert i. induction hist as [|b hist IH]; intros i; [done|].
  unfold index in *. rewrite fmap_cons, filter_cons. simpl.
  case_bool_decide; case_decide; try done. simpl. by rewrite IH.
Qed.

Lemma get_loc_int_scalar hist label i :
  get_loc (index hist) label = Ok (LocInt i) →
  ∃ f, loc_close hist label = Ok (Scalar f).
Proof.
  unfold get_loc, loc_close. pose proof (positions_length hist label 0) as Hlen.
  destruct (positions _ _ _) as [|? [|? ?]]; intros; simplify_eq.
  - destruct (filter _ hist) as [|b [|? ?]]; simplify_eq/=. by eexists.
  - by destruct (is_monotonic_increasing _).
Qed.

(** The tuples [find_entry_exit] can return. *)
Lemma find_entry_exit_cases hist signal_dt days t :
  find_entry_exit hist signal_dt days = Ok t →
  t = (None, None, None, None) ∨
  (∃ e_date e_price,
      t = (Some e_date, Some (Scalar e_price), None, None)) ∨
  (∃ e_date e_price x_date x_price,
      t = (Some e_date, Some (Scalar e_price), Some x_date, Some x_price) ∧
      loc_close hist x_date = Ok x_price).
Proof.
  unfold find_entry_exit. cbv zeta.
  destruct (filter _ _) as [|entry_date ?]; [intros; simplify_eq; by left|].
  destruct (get_loc _ _) as [[entry_pos| |]|] eqn:Hloc;
    bind_step; try done.
  apply get_loc_int_scalar in Hloc as [f ->].
  case_bool_decide; rewrite ?bind_Ok.
  - intros; simplify_eq. right; left. by eexists _, _.
  - destruct (py_getitem _ _); bind_step; [|done].
    destruct (loc_close _ _) eqn:Hx; bind_step; [|done].
    intros; simplify_eq. right; right. by eexists _, _, _, _.
Qed.

Lemma cli_build_result_outcome sym sig_dt inv days hist r :
  Backtest.build_result sym sig_dt inv days hist = Ok r →
  row_outcome sym sig_dt inv days hist r.
Proof.
  unfold Backtest.build_result. destruct hist as [hist|].
  2:{ intros; simplify_eq. constructor. }
  destruct (find_entry_exit hist sig_dt days) as [t|] eqn:Hfind;
    bind_step; [|done].
  destruct (find_entry_exit_cases _ _ _ _ Hfind)
    as [->|[(e_date & e_price & ->)|(e_date & e_price & x_date & x_price & -> & Hx)]].
  - simpl. intros; simplify_eq. by constructor.
  - simpl. intros; simplify_eq. by constructor.
  - destruct (loc_close_cases _ _ _ Hx) as [[x ->]|(l & -> & Hl)].
    + simpl. intros; simplify_eq. by constructor.
    + destruct l as [|? [|? ?]]; simpl in Hl; [lia|lia|done].
Qed.

Lemma app_build_result_outcome sym sig_dt inv days hist r :
  StreamlitApp.build_result sym sig_dt inv days hist = Ok r →
  row_outcome sym sig_dt inv days hist r.
Proof.
  unfold StreamlitApp.build_result. destruct hist as [hist|].
  2:{ intros; simplify_eq. constructor. }
  destruct (find_entry_exit hist sig_dt days) as [t|] eqn:Hfind;
    bind_step; [|done].
  destruct (find_entry_exit_cases _ _ _ _ Hfind)
    as [->|[(e_date & e_price & ->)|(e_date & e_price & x_date & x_price & -> & Hx)]].
  - simpl. intros; simplify_eq. by constructor.
  - simpl. intros; simplify_eq. by constructor.
  - destruct (loc_close_cases _ _ _ Hx) as [[x ->]|(l & -> & Hl)].
    + simpl. unfold py_div. destruct (PrimFloat.eqb e_price 0); simpl; [done|].
      intros; simplify_eq. by constructor.
    + destruct l as [|? [|? ?]]; simpl in Hl; [lia|lia|done].
Qed.

(** ** The loops *)

Lemma mapM_result_cons {A B} (f : A → result B) x l :
  mapM f (x :: l) = y ← f x; k ← mapM f l; Ok (y :: k).
Proof. reflexivity. Qed.

Lemma mapM_result_Forall2 {A B} (f : A → result B) l k :
  mapM f l = Ok k ↔ Forall2 (λ x y, f x = Ok y) l k.
Proof.
  revert k. induction l as [|x l IH]; intros k.
  - split; [intros [= <-]; constructor|by inversion 1].
  - rewrite mapM_result_cons. split.
    + destruct (f x) as [y|] eqn:Hx; bind_step; [|done].
      destruct (mapM f l) as [k'|]; bind_step; [|done].
      intros [= <-]. constructor; [done|]. by apply IH.
    + inversion 1 as [|? y ? k' Hx Hl]; subst.
      apply IH in Hl. by rewrite Hx, bind_Ok, Hl, bind_Ok.
Qed.

Lemma mapM_result_ext {A B} (f g : A → result B) l :
  (∀ x, x ∈ l → f x = g x) → mapM f l = mapM g l.
Proof.
  induction l as [|x l IH]; intros Hfg; [done|].
  rewrite !mapM_result_cons, Hfg, IH; [done| |left].
  intros y Hy. apply Hfg. by right.
Qed.

Lemma cli_loop_mapM download symbol_col inv days todo results cache :
  Backtest.backtest_loop download symbol_col inv days todo results cache
  = new ← mapM (cli_row download symbol_col inv days) todo; Ok (results ++ new).
Proof.
  revert results cache. induction todo as [|[row sig_dt] todo IH];
    intros results cache.
  - simpl. by rewrite app_nil_r.
  - rewrite mapM_result_cons. simpl.
    change (Backtest.build_result _ _ _ _ _)
      with (cli_row download symbol_col inv days (row, sig_dt)).
    destruct (cli_row _ _ _ _ _) as [r|]; bind_step; [|done].
    rewrite IH.
    destruct (mapM _ todo) as [new|]; bind_step; [|done].
    by rewrite <- app_assoc.
Qed.

Lemma app_loop_cons download symbol_col inv days entry todo results :
  StreamlitApp.backtest_loop download symbol_col inv days (entry :: todo) results
  = r ← app_row download symbol_col inv days entry;
    StreamlitApp.backtest_loop download symbol_col inv days todo (results ++ [r]).
Proof.
  destruct entry as [row sig_dt]. unfold app_row. simpl.
  by destruct (StreamlitApp.get_prices_for_symbol _ _ _ _).
Qed.

Lemma app_loop_mapM download symbol_col inv days todo results :
  StreamlitApp.backtest_loop download symbol_col inv days todo results
  = new ← mapM (app_row download symbol_col inv days) todo; Ok (results ++ new).
Proof.
  revert results. induction todo as [|entry todo IH]; intros results.
  - simpl. by rewrite app_nil_r.
  - rewrite mapM_result_cons, app_loop_cons.
    destruct (app_row _ _ _ _ entry) as [r|]; bind_step; [|done].
    rewrite IH.
    destruct (mapM _ todo) as [new|]; bind_step; [|done].
    by rewrite <- app_assoc.
Qed.

(** A completed run is the row-by-row image of the parsed signals. *)
Lemma cli_run_rows download to_datetime sigs inv days results :
  Backtest.run_backtest download to_datetime sigs inv days = Ok results →
  ∃ symbol_col date_col dts,
    Backtest.detect_columns (columns sigs) = Ok (symbol_col, date_col) ∧
    to_datetime ((λ row, row date_col) <$> rows sigs) = Some dts ∧
    Forall2 (λ entry r, cli_row download symbol_col inv days entry = Ok r)
      (zip (rows sigs) dts) results.
Proof.
  unfold Backtest.run_backtest.
  destruct (Backtest.detect_columns _) as [[symbol_col date_col]|];
    bind_step; [|done].
  destruct (to_datetime _) as [dts|] eqn:Hdts; [|done].
  rewrite cli_loop_mapM.
  destruct (mapM _ _) as [new|] eqn:Hnew; bind_step; [|done].
  intros [= <-]. exists symbol_col, date_col, dts.
  split_and!; [done..|]. by apply mapM_result_Forall2.
Qed.

Lemma app_run_rows download to_datetime sigs inv days results :
  StreamlitApp.run_backtest_df download to_datetime sigs inv days = Ok results →
  ∃ symbol_col date_col dts,
    StreamlitApp.detect_columns (columns sigs) = (Some symbol_col, Some date_col) ∧
    to_datetime ((λ row, row date_col) <$> rows sigs) = Some dts ∧
    Forall2 (λ entry r, app_row download symbol_col inv days entry = Ok r)
      (zip (rows sigs) dts) results.
Proof.
  unfold StreamlitApp.run_backtest_df.
  destruct (StreamlitApp.detect_columns _) as [[symbol_col|] [date_col|]];
    try done.
  destruct (to_datetime _) as [dts|] eqn:Hdts; [|done].
  rewrite app_loop_mapM.
  destruct (mapM _ _) as [new|] eqn:Hnew; bind_step; [|done].
  intros [= <-]. exists symbol_col, date_col, dts.
  split_and!; [done..|]. by apply mapM_result_Forall2.
Qed.

Lemma scenario_cli_run :
  Backtest.run_backtest scenario_source scenario_to_datetime
    scenario_signals 1000%float 2 = Ok scenario_results.
Proof. vm_compute. reflexivity. Qed.

Lemma scenario_app_run :
  StreamlitApp.run_backtest_df scenario_source scenario_to_datetime
    scenario_signals 1000%float 2 = Ok scenario_results.
Proof. vm_compute. reflexivity. Qed.

Lemma scenario_return :
  return_pct <$> scenario_results !! 0%nat
  = Some (Some 0x1.e1e1e1e1e1e1ep-6%float) ∧      (* 0.029411764705882353 *)
  profit <$> scenario_results !! 0%nat
  = Some (Some 0x1.d696969696969p+4%float).       (* 29.411764705882351 *)
Proof. split; vm_compute; reflexivity. Qed.

(** ** States, return and profit *)

Lemma app_get_prices_fst download sym start end_ :
  (StreamlitApp.get_prices_for_symbol download sym start end_).1
  = Backtest.get_prices download sym start end_.
Proof.
  unfold StreamlitApp.get_prices_for_symbol, Backtest.get_prices, candidates.
  rewrite !app_get_prices_from_cons, !get_prices_from_cons.
  repeat case_decide; done.
Qed.

Lemma row_outcome_exactly_one sym sig_dt inv days hist r :
  row_outcome sym sig_dt inv days hist r → exactly_one_state r.
Proof.
  unfold exactly_one_state, no_data_state, no_entry_state, no_exit_state,
    resolved_state.
  destruct 1; simpl.
  - left. split_and!; try done; intros (_ & _ & _ & _ & _ & _ & [=]).
  - right; left. split_and!; try done; intros (_ & _ & _ & _ & _ & _ & [=]).
  - right; right; left.
    split_and!; try done; intros (_ & _ & _ & _ & _ & _ & [=]).
  - right; right; right.
    split_and!; try done; intros (_ & _ & _ & _ & _ & _ & [=]).
Qed.

Lemma row_outcome_resolved sym sig_dt inv days hist r :
  row_outcome sym sig_dt inv days hist r → resolved_state r →
  ∃ e_date e_price x_date x_price,
    r = resolved_row sym sig_dt inv e_date e_price x_date x_price.
Proof.
  destruct 1; intros (_ & _ & _ & _ & _ & _ & Hnote); simplify_eq/=.
  by eexists _, _, _, _.
Qed.

Lemma cli_row_outcome download symbol_col inv days entry r :
  cli_row download symbol_col inv days entry = Ok r →
  row_outcome (strip (entry.1 symbol_col)) entry.2 inv days
    (Backtest.get_prices download (strip (entry.1 symbol_col))
       (entry.2 - timedelta 1) (entry.2 + timedelta (days + 3))) r.
Proof. apply cli_build_result_outcome. Qed.

Lemma app_row_outcome download symbol_col inv days entry r :
  app_row download symbol_col inv days entry = Ok r →
  row_outcome (strip (entry.1 symbol_col)) entry.2 inv days
    (Backtest.get_prices download (strip (entry.1 symbol_col))
       (entry.2 - timedelta 1) (entry.2 + timedelta (days + 3))) r.
Proof.
  unfold app_row. cbv zeta. rewrite app_get_prices_fst.
  apply app_build_result_outcome.
Qed.

(** Every row of a completed run, of either front end, stems from one of
    the four outcomes for the series fetched for its signal. *)
Lemma run_outcomes download to_datetime sigs inv days results :
  Backtest.run_backtest download to_datetime sigs inv days = Ok results ∨
  StreamlitApp.run_backtest_df download to_datetime sigs inv days = Ok results →
  ∃ symbol_col date_col dts,
    to_datetime ((λ row, row date_col) <$> rows sigs) = Some dts ∧
    Forall2
      (λ entry r,
         row_outcome (strip (entry.1 symbol_col)) entry.2 inv days
           (Backtest.get_prices download (strip (entry.1 symbol_col))
              (entry.2 - timedelta 1) (entry.2 + timedelta (days + 3))) r)
      (zip (rows sigs) dts) results.
Proof.
  intros [Hrun|Hrun].
  - apply cli_run_rows in Hrun as (symbol_col & date_col & dts & _ & Hdts & Hrows).
    exists symbol_col, date_col, dts. split; [done|].
    eapply Forall2_impl; [done|]. intros entry r. apply cli_row_outcome.
  - apply app_run_rows in Hrun as (symbol_col & date_col & dts & _ & Hdts & Hrows).
    exists symbol_col, date_col, dts. split; [done|].
    eapply Forall2_impl; [done|]. intros entry r. apply app_row_outcome.
Qed.

(** C3. Every result row of a completed run is in exactly one of the four
    states: no price data, no entry, no exit, fully resolved; and it is the
    row the state table gives for the series fetched for its signal. *)
Theorem trade_result_states download to_datetime sigs inv days results :
  Backtest.run_backtest download to_datetime sigs inv days = Ok results ∨
  StreamlitApp.run_backtest_df download to_datetime sigs inv days = Ok results →
  Forall exactly_one_state results ∧
  ∃ symbol_col date_col dts,
    to_datetime ((λ row, row date_col) <$> rows sigs) = Some dts ∧
    Forall2
      (λ entry r,
         row_outcome (strip (entry.1 symbol_col)) entry.2 inv days
           (Backtest.get_prices download (strip (entry.1 symbol_col))
              (entry.2 - timedelta 1) (entry.2 + timedelta (days + 3))) r)
      (zip (rows sigs) dts) results.
Proof.
  intros Hrun.
  destruct (run_outcomes _ _ _ _ _ _ Hrun)
    as (symbol_col & date_col & dts & Hdts & Hrows).
  split; [|by eauto].
  apply Forall_forall. intros r Hr.
  apply list_elem_of_lookup in Hr as [i Hi].
  destruct (Forall2_lookup_r _ _ _ _ _ Hrows Hi) as (entry & _ & Hout).
  by eapply row_outcome_exactly_one.
Qed.

Lemma trade_result_states_witness :
  (Backtest.run_backtest scenario_source scenario_to_datetime
     scenario_signals 1000%float 2 = Ok scenario_results ∨
   StreamlitApp.run_backtest_df scenario_source scenario_to_datetime
     scenario_signals 1000%float 2 = Ok scenario_results) ∧
  Forall exactly_one_state scenario_results.
Proof.
  assert (Backtest.run_backtest scenario_source scenario_to_datetime
            scenario_signals 1000%float 2 = Ok scenario_results) as Hrun
    by (vm_compute; reflexivity).
  split; [by left|].
  apply (trade_result_states scenario_source scenario_to_datetime
           scenario_signals 1000%float 2 scenario_results). by left.
Defined.

(** C4. In every fully resolved row, return_pct is
    (exit_price - entry_price) / entry_price and profit is
    return_pct * investment, as computed in binary64 with nothing rounded
    afterwards. *)
Theorem return_and_profit download to_datetime sigs inv days results :
  Backtest.run_backtest download to_datetime sigs inv days = Ok results ∨
  StreamlitApp.run_backtest_df download to_datetime sigs inv days = Ok results →
  ∀ r, r ∈ results → resolved_state r →
    ∃ e_price x_price ret,
      entry_price r = Some e_price ∧ exit_price r = Some x_price ∧
      return_pct r = Some ret ∧
      ret = ((x_price - e_price) / e_price)%float ∧
      profit r = Some (ret * investment r)%float ∧
      investment r = inv.
Proof.
  intros Hrun r Hr Hres.
  destruct (run_outcomes _ _ _ _ _ _ Hrun)
    as (symbol_col & date_col & dts & Hdts & Hrows).
  apply list_elem_of_lookup in Hr as [i Hi].
  destruct (Forall2_lookup_r _ _ _ _ _ Hrows Hi) as (entry & _ & Hout).
  destruct (row_outcome_resolved _ _ _ _ _ _ Hout Hres)
    as (e_date & e_price & x_date & x_price & ->).
  by eexists _, _, _.
Qed.

Lemma return_and_profit_witness :
  ∃ r, scenario_results !! 0%nat = Some r ∧ resolved_state r ∧
    ∃ e_price x_price ret,
      entry_price r = Some e_price ∧ exit_price r = Some x_price ∧
      return_pct r = Some ret ∧
      ret = ((x_price - e_price) / e_price)%float ∧
      profit r = Some (ret * investment r)%float ∧
      investment r = 1000%float.
Proof.
  assert (Backtest.run_backtest scenario_source scenario_to_datetime
            scenario_signals 1000%float 2 = Ok scenario_results) as Hrun
    by (vm_compute; reflexivity).
  eexists. split; [reflexivity|].
  assert (resolved_state
            (resolved_row "ACME" (on_day 19725) 1000 (on_day 19725) 102
               (on_day 19727) 105)) as Hres
    by (unfold resolved_state; simpl; split_and!; eauto).
  split; [done|].
  apply (return_and_profit scenario_source scenario_to_datetime
           scenario_signals 1000%float 2 scenario_results); [by left| |done].
  left.
Defined.

(** ** Completion of a batch *)

Lemma get_prices_served download sym start end_ hist :
  Backtest.get_prices download sym start end_ = Some hist →
  ∃ t df,
    download t (date_of start) (date_of (end_ + timedelta 1)) = FetchFrame df ∧
    hist = close_only (sort_index df).
Proof.
  unfold Backtest.get_prices, candidates. rewrite !get_prices_from_cons.
  repeat case_decide; intros; simplify_eq;
    match goal with
    | H : frame_of (download ?t ?s ?e) ≠ [] |- _ =>
        exists t; destruct (download t s e) as [| |df] eqn:Hd;
        simpl in *; try done; by exists df
    end.
Qed.







Lemma row_outcome_keys sym sig_dt inv days hist r :
  row_outcome sym sig_dt inv days hist r →
  symbol r = sym ∧ signal_date r = date_of sig_dt ∧ investment r = inv.
Proof. by destruct 1. Qed.

Section WellFormedSource.

Variable download : downloader.

(** The frames of the data source have no repeated date and no zero
    close. *)
Hypothesis frames_ok : ∀ t s e df,
  download t s e = FetchFrame df →
  NoDup (q_date <$> df) ∧
  Forall (λ q, PrimFloat.eqb (q_close q) 0 = false) df.



End WellFormedSource.




(** ** The fetch window *)

Lemma date_of_minus_day t : date_of (t - timedelta 1) = date_of t - 1.
Proof.
  unfold date_of, timedelta.
  replace (t - 1 * day_ticks) with (t + (-1) * day_ticks) by lia.
  rewrite Z.div_add by done. lia.
Qed.

(** The provider asks the data source for the days from that of [start]
    to that of [end_], the day after [end_] being the excluded bound. *)
Lemma get_prices_requests download1 download2 sym start end_ :
  (∀ t, download1 t (date_of start) (date_of end_ + 1)
        = download2 t (date_of start) (date_of end_ + 1)) →
  Backtest.get_prices download1 sym start end_
  = Backtest.get_prices download2 sym start end_.
Proof.
  intros Hsame. unfold Backtest.get_prices, candidates.
  assert (date_of (end_ + timedelta 1) = date_of end_ + 1) as Hend.
  { unfold date_of, timedelta. rewrite Z.div_add by done. lia. }
  rewrite !get_prices_from_cons, !Hend, !Hsame. done.
Qed.

Lemma rows_same_window download1 download2 symbol_col inv days entry :
  (∀ t, download1 t (date_of entry.2 - 1) (date_of entry.2 + (days + 3) + 1)
        = download2 t (date_of entry.2 - 1) (date_of entry.2 + (days + 3) + 1)) →
  cli_row download1 symbol_col inv days entry
  = cli_row download2 symbol_col inv days entry ∧
  app_row download1 symbol_col inv days entry
  = app_row download2 symbol_col inv days entry.
Proof.
  intros Hsame. unfold cli_row, app_row. cbv zeta.
  rewrite !app_get_prices_fst.
  rewrite (get_prices_requests download1 download2); [done|].
  intros t. rewrite date_of_minus_day.
  replace (date_of (entry.2 + timedelta (days + 3)))
    with (date_of entry.2 + (days + 3)); [apply Hsame|].
  unfold date_of, timedelta. rewrite Z.div_add by done. lia.
Qed.

(** C8. For every signal the provider is asked for the inclusive range from
    signal_date - 1 day to signal_date + holding period + safety margin
    days, the margin being 3: each result row is the outcome for the series
    the provider returns on that range, and a run depends on the data
    source only through its answers for these ranges, the day after the
    range being the excluded bound of the request. *)
Theorem fetch_window_rule download to_datetime sigs inv days :
  let safety_margin := 3 in
  3 ≤ safety_margin ∧
  (∀ results,
     Backtest.run_backtest download to_datetime sigs inv days = Ok results ∨
     StreamlitApp.run_backtest_df download to_datetime sigs inv days = Ok results →
     ∃ symbol_col date_col dts,
       to_datetime ((λ row, row date_col) <$> rows sigs) = Some dts ∧
       Forall2
         (λ entry r,
            row_outcome (strip (entry.1 symbol_col)) entry.2 inv days
              (Backtest.get_prices download (strip (entry.1 symbol_col))
                 (entry.2 - timedelta 1)
                 (entry.2 + timedelta (days + safety_margin))) r)
         (zip (rows sigs) dts) results) ∧
  (∀ download2,
     (∀ date_col dts sig_dt t,
        to_datetime ((λ row, row date_col) <$> rows sigs) = Some dts →
        sig_dt ∈ dts →
        let first_day := date_of sig_dt - 1 in
        let last_day := date_of sig_dt + (days + safety_margin) in
        download t first_day (last_day + 1)
        = download2 t first_day (last_day + 1)) →
     Backtest.run_backtest download to_datetime sigs inv days
     = Backtest.run_backtest download2 to_datetime sigs inv days ∧
     StreamlitApp.run_backtest_df download to_datetime sigs inv days
     = StreamlitApp.run_backtest_df download2 to_datetime sigs inv days).
Proof.
  intros safety_margin. subst safety_margin.
  split; [lia|]. split; [apply run_outcomes|].
  intros download2 Hsame.
  assert (∀ symbol_col date_col dts,
    to_datetime ((λ row, row date_col) <$> rows sigs) = Some dts →
    mapM (cli_row download symbol_col inv days) (zip (rows sigs) dts)
    = mapM (cli_row download2 symbol_col inv days) (zip (rows sigs) dts) ∧
    mapM (app_row download symbol_col inv days) (zip (rows sigs) dts)
    = mapM (app_row download2 symbol_col inv days) (zip (rows sigs) dts))
    as Hrows.
  { intros symbol_col date_col dts Hdts.
    split; apply mapM_result_ext; intros [row sig_dt] Hin;
      apply elem_of_zip_r in Hin;
      apply rows_same_window; intros t; by eapply (Hsame date_col dts). }
  split.
  - unfold Backtest.run_backtest.
    destruct (Backtest.detect_columns _) as [[symbol_col date_col]|];
      bind_step; [|done].
    destruct (to_datetime _) as [dts|] eqn:Hdts; [|done].
    rewrite !cli_loop_mapM.
    by destruct (Hrows symbol_col date_col dts Hdts) as [-> _].
  - unfold StreamlitApp.run_backtest_df.
    destruct (StreamlitApp.detect_columns _) as [[symbol_col|] [date_col|]];
      try done.
    destruct (to_datetime _) as [dts|] eqn:Hdts; [|done].
    rewrite !app_loop_mapM.
    by destruct (Hrows symbol_col date_col dts Hdts) as [_ ->].
Qed.

Lemma fetch_window_rule_witness :
  Backtest.run_backtest scenario_source scenario_to_datetime
    scenario_signals 1000%float 2
  = Backtest.run_backtest
      (λ t s e, if decide (19724 ≤ s ∧ e ≤ 19737) then scenario_source t s e
                else FetchError)
      scenario_to_datetime scenario_signals 1000%float 2.
Proof.
  destruct (fetch_window_rule scenario_source scenario_to_datetime
              scenario_signals 1000%float 2) as (_ & _ & Hdep).
  apply Hdep. intros date_col dts sig_dt t Hdts Hin first_day last_day.
  subst first_day last_day.
  revert Hdts Hin. unfold scenario_to_datetime.
  generalize ((λ row : string → string, row date_col) <$> rows scenario_signals).
  intros col [= <-] (cell_text & -> & _)%list_elem_of_fmap.
  repeat case_decide; try reflexivity; exfalso;
    match goal with H : ¬ _ |- _ => apply H end; vm_compute; split; discriminate.
Defined.

(** ** Display formatting *)

Lemma format_2f_two_decimals f : finite f → two_decimals (format_2f f).
Proof.
  unfold finite, format_2f, two_decimals.
  destruct (Prim2SF f) as [s|s| |s m e]; try done; intros _.
  - exists s, 0%N, 0, 0. split_and!; [lia..|]. by destruct s.
  - set (h := if bool_decide (0 ≤ e) then _ else _).
    exists s, (Z.to_N (h `div` 100)), ((h `mod` 100) `div` 10), (h `mod` 10).
    split_and!.
    + apply Z.div_pos; [|lia]. by apply Z.mod_pos_bound.
    + pose proof (Z.mod_pos_bound h 100 ltac:(lia)).
      apply Zlt_succ_le, Z.div_lt_upper_bound; lia.
    + by apply Z.mod_pos_bound.
    + pose proof (Z.mod_pos_bound h 10 ltac:(lia)). lia.
    + unfold hundredths_text. by destruct s.
Qed.

Lemma fmt_price_numeric v :
  numeric_or_null v → fmt_price v = Ok (price_cell v).
Proof.
  destruct v as [|f|s]; [done| |done]. intros _.
  unfold fmt_price, price_cell. simpl. by destruct (PrimFloat.is_nan f).
Qed.

Lemma fmt_pct_numeric float_of_text v :
  numeric_or_null v →
  FormatResults.fmt_pct float_of_text v = Ok (pct_cell v) ∧
  StreamlitApp.fmt_pct float_of_text v = Ok (pct_cell v).
Proof.
  destruct v as [|f|s]; [done| |done]. intros _.
  unfold FormatResults.fmt_pct, StreamlitApp.fmt_pct, pct_cell, pct_text.
  simpl. by destruct (PrimFloat.is_nan f).
Qed.

Lemma mapM_result_fmap {A B} (f : A → result B) (g : A → B) l :
  Forall (λ x, f x = Ok (g x)) l → mapM f l = Ok (g <$> l).
Proof.
  induction 1 as [|x l Hx _ IH]; [done|].
  by rewrite mapM_result_cons, Hx, bind_Ok, IH, bind_Ok.
Qed.

Lemma apply_column_alter name f g (df : gmap string (list value)) :
  (∀ col, df !! name = Some col → Forall (λ v, f v = Ok (g v)) col) →
  apply_column name f df = Ok (alter (fmap g) name df).
Proof.
  intros Hcol. unfold apply_column.
  destruct (df !! name) as [col|] eqn:Hlook.
  - rewrite (mapM_result_fmap f g) by auto. rewrite bind_Ok. f_equal.
    apply map_eq. intros k. rewrite lookup_insert, lookup_alter.
    case_decide; subst; by rewrite ?Hlook.
  - f_equal. apply map_eq. intros k. rewrite lookup_alter.
    case_decide; subst; by rewrite ?Hlook.
Qed.

Section Formatter.

Variable df : gmap string (list value).

Hypothesis raw_cells : ∀ name col,
  name ∈ "return_pct" :: price_columns → df !! name = Some col →
  Forall numeric_or_null col.

(** The table after each of the five column updates. *)
Let df1 := alter (fmap price_cell) "entry_price" df.
Let df2 := alter (fmap price_cell) "exit_price" df1.
Let df3 := alter (fmap price_cell) "profit" df2.
Let df4 := alter (fmap price_cell) "investment" df3.
Let df5 := alter (fmap pct_cell) "return_pct" df4.

Lemma price_column_ok name col :
  name ∈ price_columns → df !! name = Some col →
  Forall (λ v, fmt_price v = Ok (price_cell v)) col.
Proof.
  intros Hname Hcol. eapply Forall_impl.
  - eapply raw_cells; [|done]. by right.
  - intros v. apply fmt_price_numeric.
Qed.

Lemma formatted_lookup name :
  df5 !! name
  = if decide (name ∈ price_columns) then fmap price_cell <$> df !! name
    else if decide (name = "return_pct") then fmap pct_cell <$> df !! name
    else df !! name.
Proof.
  unfold df5, df4, df3, df2, df1, price_columns.
  rewrite !lookup_alter.
  destruct (decide (name ∈ _)) as [Hin|Hnot];
    rewrite !elem_of_cons, elem_of_nil in *.
  - destruct Hin as [->|[->|[->|[->|[]]]]]; by simpl.
  - destruct (decide (name = "return_pct")) as [->|Hne]; [by simpl|].
    rewrite !decide_False; [done|naive_solver..].
Qed.

Variable float_of_text : string → option float.

Lemma format_steps :
  apply_column "entry_price" fmt_price df = Ok df1 ∧
  apply_column "exit_price" fmt_price df1 = Ok df2 ∧
  apply_column "profit" fmt_price df2 = Ok df3 ∧
  apply_column "investment" fmt_price df3 = Ok df4 ∧
  apply_column "return_pct" (FormatResults.fmt_pct float_of_text) df4 = Ok df5 ∧
  apply_column "return_pct" (StreamlitApp.fmt_pct float_of_text) df4 = Ok df5.
Proof.
  unfold df5, df4, df3, df2, df1.
  split_and!; apply apply_column_alter; intros col;
    rewrite ?lookup_alter_ne by done; intros Hcol.
  1-4: eapply price_column_ok; [|done]; unfold price_columns; set_solver.
  all: eapply Forall_impl; [eapply raw_cells; [|done]; by left|];
    intros v Hv; by apply fmt_pct_numeric.
Qed.

Lemma format_both :
  FormatResults.format_csv float_of_text df = Ok df5 ∧
  StreamlitApp.format_results float_of_text df = Ok df5.
Proof.
  destruct format_steps as (H1 & H2 & H3 & H4 & H5 & H5').
  unfold FormatResults.format_csv, StreamlitApp.format_results.
  split; by rewrite H1, bind_Ok, H2, bind_Ok, H3, bind_Ok, H4, bind_Ok.
Qed.

End Formatter.

(** C9. On a raw table (numbers or nulls in the five formatted columns)
    both formatters render entry_price, exit_price, profit and investment
    with two decimals, a null as the empty string, and render return_pct as
    a percentage: a non-null value of magnitude below 2 is multiplied by 100
    before it is printed with a "%" suffix, any other is printed as it is.
    Other columns are left alone, and a finite number is printed as
    [-]digits.dd. *)
Theorem format_rule float_of_text (df : gmap string (list value)) :
  (∀ name col, name ∈ "return_pct" :: price_columns →
     df !! name = Some col → Forall numeric_or_null col) →
  ∃ df',
    FormatResults.format_csv float_of_text df = Ok df' ∧
    StreamlitApp.format_results float_of_text df = Ok df' ∧
    (∀ name, name ∈ price_columns →
       df' !! name = fmap price_cell <$> df !! name) ∧
    df' !! "return_pct" = fmap pct_cell <$> df !! "return_pct" ∧
    (∀ name, name ∉ "return_pct" :: price_columns → df' !! name = df !! name) ∧
    (∀ v, isnull v = true → numeric_or_null v →
       price_cell v = VText EmptyString ∧ pct_cell v = VText EmptyString) ∧
    (∀ f, isnull (VFloat f) = false →
       price_cell (VFloat f) = VText (format_2f f) ∧
       pct_cell (VFloat f)
       = VText (format_2f (if PrimFloat.ltb (PrimFloat.abs f) 2
                           then (f * 100)%float else f) +:+ "%")) ∧
    (∀ f, finite f → two_decimals (format_2f f)).
Proof.
  intros Hraw.
  destruct (format_both df Hraw float_of_text) as [Hcsv Happ].
  eexists. split_and!; [exact Hcsv|exact Happ|..].
  - intros name Hname. rewrite formatted_lookup.
    destruct (decide (name ∈ price_columns)); done.
  - rewrite formatted_lookup.
    destruct (decide ("return_pct" ∈ price_columns)) as [Hin|_]; [|done].
    unfold price_columns in Hin.
    rewrite !elem_of_cons, elem_of_nil in Hin.
    destruct Hin as [Hin|[Hin|[Hin|[Hin|[]]]]]; discriminate Hin.
  - intros name Hname. rewrite formatted_lookup.
    destruct (decide (name ∈ price_columns)) as [Hin|_];
      [exfalso; apply Hname; by right|].
    destruct (decide (name = "return_pct")) as [->|_]; [|done].
    exfalso. apply Hname. left.
  - intros [|f|s] Hnull Hnum; simpl in *; [done| |done].
    unfold price_cell, pct_cell. by rewrite Hnull.
  - intros f Hnull. simpl in Hnull. unfold price_cell, pct_cell.
    by rewrite Hnull.
  - apply format_2f_two_decimals.
Qed.

Lemma scenario_table_raw name col :
  name ∈ "return_pct" :: price_columns →
  scenario_table !! name = Some col → Forall numeric_or_null col.
Proof.
  unfold price_columns. rewrite !elem_of_cons, elem_of_nil.
  intros [->|[->|[->|[->|[->|[]]]]]]; vm_compute; intros [= <-];
    repeat constructor.
Qed.

Lemma format_rule_witness :
  FormatResults.format_csv (λ _, None) scenario_table
  = Ok scenario_table_formatted ∧
  StreamlitApp.format_results (λ _, None) scenario_table
  = Ok scenario_table_formatted.
Proof.
  destruct (format_rule (λ _, None) scenario_table scenario_table_raw)
    as (df' & Hcsv & Happ & _).
  assert (FormatResults.format_csv (λ _, None) scenario_table
          = Ok scenario_table_formatted) as Heq by (vm_compute; reflexivity).
  split; [exact Heq|]. rewrite Happ, <- Hcsv. exact Heq.
Defined.

(** * Further properties of the code *)

(** ** Edge behaviour of the resolver *)

Lemma positions_present idx key i : key ∈ idx → positions idx key i ≠ [].
Proof.
  revert i. induction idx as [|d idx IH]; intros i Hin.
  - by apply elem_of_nil in Hin.
  - simpl. case_bool_decide; [done|].
    apply elem_of_cons in Hin as [->|Hin]; [done|by apply IH].
Qed.

(** X1. When the date chosen as entry is listed more than once in the
    index, [find_entry_exit] raises: TypeError on a monotonic index (the
    position is a slice), ValueError otherwise (it is a mask). *)
Theorem find_entry_exit_repeated_entry_date pre b post signal_dt days :
  Forall (λ b', bar_date b' < signal_dt) pre → signal_dt ≤ bar_date b →
  bar_date b ∈ index post →
  find_entry_exit (pre ++ b :: post) signal_dt days
  = if is_monotonic_increasing (index (pre ++ b :: post))
    then Raise TypeError
    else Raise (ValueError "ambiguous truth value").
Proof.
  intros Hpre Hb Hpost.
  assert (bar_date b ∉ index pre) as Habs by by eapply before_signal_absent.
  unfold find_entry_exit. cbv zeta. rewrite candidate_split by done.
  unfold get_loc.
  replace (index (pre ++ b :: post)) with (index pre ++ bar_date b :: index post)
    by (unfold index; by rewrite fmap_app).
  rewrite positions_app, positions_absent by done. simpl.
  rewrite bool_decide_eq_true_2 by done.
  pose proof (positions_present _ _ (S (0 + length (index pre))) Hpost) as Hne.
  destruct (positions (index post) _ _) as [|j js]; [done|].
  bind_step. by destruct (is_monotonic_increasing _).
Qed.

Lemma find_entry_exit_repeated_entry_date_witness :
  Forall (λ b', bar_date b' < on_day 19725) [Bar (on_day 19724) 100%float] ∧
  on_day 19725 ≤ bar_date (Bar (on_day 19725) 102%float) ∧
  find_entry_exit repeated_series (on_day 19725) 1 = Raise TypeError.
Proof.
  assert (Forall (λ b', bar_date b' < on_day 19725)
            [Bar (on_day 19724) 100%float]) as Hpre by (repeat constructor).
  assert (on_day 19725 ≤ bar_date (Bar (on_day 19725) 102%float)) as Hb
    by (simpl; lia).
  split_and!; [done..|].
  apply (find_entry_exit_repeated_entry_date
           [Bar (on_day 19724) 100%float] (Bar (on_day 19725) 102%float)
           [Bar (on_day 19725) 103%float] (on_day 19725) 1 Hpre Hb).
  left.
Defined.

Lemma py_getitem_negative {A} (l : list A) i x :
  - Z.of_nat (length l) ≤ i → i < 0 →
  l !! Z.to_nat (i + Z.of_nat (length l)) = Some x →
  py_getitem l i = Ok x.
Proof.
  intros Hlo Hneg Hx. pose proof (lookup_lt_Some _ _ _ Hx). unfold py_getitem.
  cbv zeta. destruct (Z.ltb_spec i 0); [|lia].
  destruct (Z.ltb_spec (i + Z.of_nat (length l)) 0); [lia|].
  destruct (Z.leb_spec (Z.of_nat (length l)) (i + Z.of_nat (length l))); [lia|].
  simpl. by rewrite Hx.
Qed.

Lemma py_getitem_below {A} (l : list A) i :
  i < - Z.of_nat (length l) → py_getitem l i = Raise IndexError.
Proof.
  intros Hlo. unfold py_getitem. cbv zeta.
  destruct (Z.ltb_spec i 0); [|lia].
  by destruct (Z.ltb_spec (i + Z.of_nat (length l)) 0); [|lia].
Qed.

(** X2. A negative holding period is not rejected.  With the entry at
    position [i] of a series of [n] bars, the exit is read at position
    [i + days] by Python's indexing: the bar before the entry when that is
    not negative, the bar counted from the end when it lies in [-n, 0), and
    an IndexError below [-n]. *)
Theorem find_entry_exit_negative_days hist signal_dt days i b :
  NoDup (index hist) → first_on_or_after hist signal_dt i b → days < 0 →
  let n := Z.of_nat (length hist) in
  let exit_pos := Z.of_nat i + days in
  let wrapped := if bool_decide (exit_pos < 0) then exit_pos + n else exit_pos in
  (exit_pos < - n →
     find_entry_exit hist signal_dt days = Raise IndexError) ∧
  (- n ≤ exit_pos →
     ∃ b', hist !! Z.to_nat wrapped = Some b' ∧
       find_entry_exit hist signal_dt days
       = Ok (Some (bar_date b), Some (Scalar (bar_close b)),
             Some (bar_date b'), Some (Scalar (bar_close b')))).
Proof.
  intros Hnd Hfirst Hdays n exit_pos wrapped. subst n exit_pos wrapped.
  pose proof Hnd as Hnd'.
  destruct (first_on_or_after_split _ _ _ _ Hfirst) as (pre & post & Hsplit & Hi & Hpre).
  destruct Hfirst as (Hlook & Hb & _).
  pose proof (lookup_lt_Some _ _ _ Hlook) as Hlt.
  assert (find_entry_exit hist signal_dt days
          = exit_date ← py_getitem (index hist) (Z.of_nat i + days);
            exit_price ← loc_close hist exit_date;
            Ok (Some (bar_date b), Some (Scalar (bar_close b)),
                Some exit_date, Some exit_price)) as Heq.
  { subst hist. unfold index in Hnd. rewrite fmap_app, fmap_cons in Hnd.
    apply NoDup_app in Hnd as (_ & _ & [Hpost _]%NoDup_cons).
    rewrite find_entry_exit_entry by done. cbv zeta.
    rewrite bool_decide_eq_false_2; [by rewrite Hi|]. lia. }
  assert (length (index hist) = length hist) as Hlen
    by (unfold index; by rewrite length_fmap).
  split.
  - intros Hlow. rewrite Heq, py_getitem_below; [done|]. rewrite Hlen. lia.
  - intros Hin.
    destruct (lookup_lt_is_Some_2 hist
                (Z.to_nat (if bool_decide (Z.of_nat i + days < 0)
                           then Z.of_nat i + days + Z.of_nat (length hist)
                           else Z.of_nat i + days))) as [b' Hb'].
    { case_bool_decide; lia. }
    exists b'. split; [done|]. rewrite Heq.
    assert (py_getitem (index hist) (Z.of_nat i + days) = Ok (bar_date b')) as ->.
    { case_bool_decide.
      - apply py_getitem_negative; rewrite ?Hlen; [lia|done|].
        unfold index. by rewrite list_lookup_fmap, Hb'.
      - replace (Z.of_nat i + days)
          with (Z.of_nat (Z.to_nat (Z.of_nat i + days))) at 1 by lia.
        apply py_getitem_nonneg. unfold index. by rewrite list_lookup_fmap, Hb'. }
    by rewrite bind_Ok, (loc_close_lookup _ _ _ Hnd' Hb'), bind_Ok.
Qed.

Lemma find_entry_exit_negative_days_witness :
  NoDup (index scenario_series) ∧
  first_on_or_after scenario_series (on_day 19724) 0 (Bar (on_day 19724) 100%float) ∧
  -1 < 0 ∧
  find_entry_exit scenario_series (on_day 19724) (-1)
  = Ok (Some (on_day 19724), Some (Scalar 100%float),
        Some (on_day 19730), Some (Scalar 110%float)).
Proof.
  assert (NoDup (index scenario_series)) as Hnd
    by (apply (bool_decide_unpack _); vm_compute; exact I).
  assert (first_on_or_after scenario_series (on_day 19724) 0
            (Bar (on_day 19724) 100%float)) as Hfirst.
  { split_and!; [reflexivity|reflexivity|]. intros j b' Hj. lia. }
  split_and!; [done|done|lia|].
  destruct (find_entry_exit_negative_days scenario_series (on_day 19724) (-1)
              0 _ Hnd Hfirst ltac:(lia)) as [_ Hwrap].
  destruct Hwrap as (b' & Hb' & ->); [simpl; lia|].
  vm_compute in Hb'. by injection Hb' as <-.
Defined.

(** ** What a returned trade says about the series *)

Lemma positions_lookup idx key i k :
  k ∈ positions idx key i → (i ≤ k)%nat ∧ idx !! (k - i)%nat = Some key.
Proof.
  revert i. induction idx as [|d idx IH]; intros i; simpl.
  - by intros ?%elem_of_nil.
  - case_bool_decide as Hd.
    + intros [->|Hk]%elem_of_cons.
      * split; [lia|]. by rewrite Nat.sub_diag, Hd.
      * apply IH in Hk as [Hle Hk]. split; [lia|].
        by replace (k - i)%nat with (S (k - S i)) by lia.
    + intros Hk. apply IH in Hk as [Hle Hk]. split; [lia|].
      by replace (k - i)%nat with (S (k - S i)) by lia.
Qed.

Lemma py_getitem_Ok_inv {A} (l : list A) i x :
  py_getitem l i = Ok x →
  x ∈ l ∧ (0 ≤ i → l !! Z.to_nat i = Some x).
Proof.
  unfold py_getitem. cbv zeta.
  destruct (_ || _); [done|].
  destruct (l !! _) as [y|] eqn:Hy; [|done]. intros [= ->].
  split; [by eapply list_elem_of_lookup_2|].
  intros Hi. destruct (Z.ltb_spec i 0); [lia|done].
Qed.

(** The entry returned is the head of the candidates and sits once in the
    index; a returned exit is read at the entry position plus [days]. *)
Lemma find_entry_exit_inv hist signal_dt days e e_price x_date x_price :
  find_entry_exit hist signal_dt days = Ok (Some e, e_price, x_date, x_price) →
  ∃ rest i,
    filter (λ d, signal_dt ≤ d) (index hist) = e :: rest ∧
    index hist !! i = Some e ∧
    ∀ x, x_date = Some x →
      py_getitem (index hist) (Z.of_nat i + days) = Ok x.
Proof.
  unfold find_entry_exit. cbv zeta.
  destruct (filter _ _) as [|entry_date rest] eqn:Hcand; [done|].
  unfold get_loc.
  destruct (positions _ _ _) as [|i [|? ?]] eqn:Hpos; bind_step; try done.
  2:{ by destruct (is_monotonic_increasing _). }
  assert (index hist !! i = Some entry_date) as Hi.
  { destruct (positions_lookup (index hist) entry_date 0 i) as [_ Hi].
    - rewrite Hpos. left.
    - by rewrite Nat.sub_0_r in Hi. }
  case_bool_decide.
  - destruct (loc_close _ _); bind_step; [|done].
    intros; simplify_eq. by exists rest, i.
  - destruct (py_getitem _ _) as [x|] eqn:Hx; bind_step; [|done].
    destruct (loc_close _ entry_date); bind_step; [|done].
    destruct (loc_close _ _); bind_step; [|done].
    intros; simplify_eq. exists rest, i. split_and!; [done..|].
    by intros ? [= <-].
Qed.

Lemma find_entry_exit_no_entry_inv hist signal_dt days :
  find_entry_exit hist signal_dt days = Ok (None, None, None, None) →
  Forall (λ b, bar_date b < signal_dt) hist.
Proof.
  intros Hret.
  destruct (entry_cases hist signal_dt) as [Hnone|(i & b & Hfirst)]; [done|].
  destruct (first_on_or_after_split _ _ _ _ Hfirst) as (pre & post & -> & _ & Hpre).
  destruct Hfirst as (_ & Hb & _).
  revert Hret. unfold find_entry_exit. cbv zeta.
  rewrite candidate_split by done.
  destruct (get_loc _ _) as [[entry_pos| |]|]; bind_step; try done.
  case_bool_decide.
  - by destruct (loc_close _ _); bind_step.
  - destruct (py_getitem _ _); bind_step; [|done].
    destruct (loc_close _ (bar_date b)); bind_step; [|done].
    by destruct (loc_close _ _); bind_step.
Qed.

Lemma sorted_filter_head (P : Z → Prop) `{∀ d, Decision (P d)} l e rest :
  StronglySorted Z.le l → filter P l = e :: rest →
  ∀ d, d ∈ l → P d → e ≤ d.
Proof.
  induction 1 as [|x l Hs IH Hall]; [done|].
  rewrite filter_cons. case_decide as Hx.
  - intros [= <- <-] d [->|Hd]%elem_of_cons _; [lia|].
    rewrite Forall_forall in Hall. by apply Hall.
  - intros Hf d [->|Hd]%elem_of_cons Hd'; [done|by apply IH].
Qed.

Lemma sorted_le_lookup (l : list Z) i j a b :
  StronglySorted Z.le l → (i ≤ j)%nat → l !! i = Some a → l !! j = Some b →
  a ≤ b.
Proof.
  intros Hs. revert i j. induction Hs as [|x l Hs IH Hall]; intros i j Hij Hi Hj.
  - by rewrite lookup_nil in Hi.
  - destruct i as [|i], j as [|j]; simplify_eq/=; [lia| |lia|].
    + eapply Forall_lookup_1 in Hall; done.
    + eapply IH; [|done..]. lia.
Qed.

Lemma served_dates df d :
  d ∈ index (close_only (sort_index df)) ↔ ∃ q, q ∈ df ∧ q_date q = d.
Proof.
  rewrite index_close_only. unfold sort_index.
  rewrite merge_sort_Permutation, list_elem_of_fmap.
  split; intros (q & ? & ?); by exists q.
Qed.

(** X3. Whatever order the data source lists its rows in, the entry date
    returned for the provider's series is the earliest fetched date on or
    after the signal. *)
Theorem entry_is_earliest_fetched df signal_dt days e e_price x_date x_price :
  find_entry_exit (close_only (sort_index df)) signal_dt days
  = Ok (Some e, e_price, x_date, x_price) →
  signal_dt ≤ e ∧ (∃ q, q ∈ df ∧ q_date q = e) ∧
  ∀ q, q ∈ df → signal_dt ≤ q_date q → e ≤ q_date q.
Proof.
  intros (rest & i & Hcand & Hi & _)%find_entry_exit_inv.
  assert (e ∈ filter (λ d, signal_dt ≤ d)
                (index (close_only (sort_index df)))) as He
    by (rewrite Hcand; left).
  apply list_elem_of_filter in He as [Hle He].
  split_and!; [done|by apply served_dates|].
  intros q Hq Hsig.
  eapply (sorted_filter_head (λ d, signal_dt ≤ d));
    [apply served_sorted|done| |done].
  apply served_dates. by exists q.
Qed.

Lemma entry_is_earliest_fetched_witness :
  find_entry_exit (close_only (sort_index scenario_quotes)) (on_day 19725) 2
  = Ok (Some (on_day 19725), Some (Scalar 102%float),
        Some (on_day 19727), Some (Scalar 105%float)) ∧
  ∀ q, q ∈ scenario_quotes → on_day 19725 ≤ q_date q → on_day 19725 ≤ q_date q.
Proof.
  assert (find_entry_exit (close_only (sort_index scenario_quotes))
            (on_day 19725) 2
          = Ok (Some (on_day 19725), Some (Scalar 102%float),
                Some (on_day 19727), Some (Scalar 105%float))) as Hret
    by (vm_compute; reflexivity).
  split; [done|].
  by destruct (entry_is_earliest_fetched _ _ _ _ _ _ _ Hret) as (_ & _ & Hmin).
Defined.

(** ** Dates of a completed run *)

Lemma date_of_mono a b : a ≤ b → date_of a ≤ date_of b.
Proof. intros. unfold date_of. by apply Z.div_le_mono. Qed.

Lemma get_prices_sorted download sym start end_ hist :
  Backtest.get_prices download sym start end_ = Some hist →
  StronglySorted Z.le (index hist).
Proof.
  intros (t & df & _ & ->)%get_prices_served. apply served_sorted.
Qed.

Lemma find_entry_exit_ordered hist signal_dt days e e_price x x_price :
  StronglySorted Z.le (index hist) → 0 ≤ days →
  find_entry_exit hist signal_dt days = Ok (Some e, e_price, Some x, x_price) →
  e ≤ x.
Proof.
  intros Hs Hdays (rest & i & _ & Hi & Hx)%find_entry_exit_inv.
  destruct (py_getitem_Ok_inv _ _ _ (Hx x eq_refl)) as [_ Hx']. 
  eapply (sorted_le_lookup (index hist) i (Z.to_nat (Z.of_nat i + days)));
    [done|lia|done|apply Hx'; lia].
Qed.

Lemma find_entry_exit_on_or_after hist signal_dt days e e_price x_date x_price :
  find_entry_exit hist signal_dt days = Ok (Some e, e_price, x_date, x_price) →
  signal_dt ≤ e.
Proof.
  intros (rest & i & Hcand & _)%find_entry_exit_inv.
  assert (e ∈ filter (λ d, signal_dt ≤ d) (index hist)) as He
    by (rewrite Hcand; left).
  by apply list_elem_of_filter in He as [Hle _].
Qed.

(** The trade behind a result row. *)
Lemma row_outcome_trade sym sig_dt inv days hist r :
  row_outcome sym sig_dt inv days hist r →
  signal_date r = date_of sig_dt ∧
  ((entry_date r = None ∧ exit_date r = None) ∨
   ∃ h e e_price x_date x_price,
     hist = Some h ∧
     find_entry_exit h sig_dt days = Ok (Some e, e_price, x_date, x_price) ∧
     entry_date r = Some (date_of e) ∧ exit_date r = date_of <$> x_date).
Proof.
  destruct 1; (split; [done|]); [by left|by left|right|right].
  - by eexists _, _, _, _, _.
  - by eexists _, _, _, _, _.
Qed.

(** X4. In every row of a completed run, of either front end, the entry
    date is on or after the signal date, and with a non-negative holding
    period the exit date is on or after the entry date; nothing is assumed
    of the data source, the provider having sorted its rows. *)
Theorem run_dates_ordered download to_datetime sigs inv days results :
  Backtest.run_backtest download to_datetime sigs inv days = Ok results ∨
  StreamlitApp.run_backtest_df download to_datetime sigs inv days = Ok results →
  ∀ r, r ∈ results →
    (∀ e, entry_date r = Some e → signal_date r ≤ e) ∧
    (0 ≤ days →
     ∀ e x, entry_date r = Some e → exit_date r = Some x → e ≤ x).
Proof.
  intros Hrun r Hr.
  destruct (run_outcomes _ _ _ _ _ _ Hrun)
    as (symbol_col & date_col & dts & Hdts & Hrows).
  apply list_elem_of_lookup in Hr as [k Hk].
  destruct (Forall2_lookup_r _ _ _ _ _ Hrows Hk) as (entry & _ & Hout).
  destruct (row_outcome_trade _ _ _ _ _ _ Hout)
    as [Hsig [[He Hx]|(h & e & e_price & x_date & x_price & Hget & Hfind & He & Hx)]].
  { rewrite He. split; [done|]. by intros. }
  rewrite Hsig, He, Hx. split.
  - intros e' [= <-]. apply date_of_mono.
    by eapply find_entry_exit_on_or_after.
  - intros Hdays e' x' [= <-] Hx'.
    destruct x_date as [x|]; simplify_eq/=. apply date_of_mono.
    eapply find_entry_exit_ordered; [|done..]. by eapply get_prices_sorted.
Qed.

Lemma run_dates_ordered_witness :
  Forall
    (λ r, (∀ e, entry_date r = Some e → signal_date r ≤ e) ∧
          (0 ≤ 2 → ∀ e x, entry_date r = Some e → exit_date r = Some x → e ≤ x))
    scenario_results.
Proof.
  apply Forall_forall.
  apply (run_dates_ordered scenario_source scenario_to_datetime
           scenario_signals 1000%float 2 scenario_results).
  left. vm_compute. reflexivity.
Defined.

(** X5. When the data source serves only rows dated inside the requested
    range, every entry date and exit date of a completed run lies between
    signal_date - 1 and signal_date + days + 3. *)
Theorem dates_within_window download to_datetime sigs inv days results :
  (∀ t s e df, download t s e = FetchFrame df →
     Forall (λ q, s ≤ date_of (q_date q) ∧ date_of (q_date q) < e) df) →
  Backtest.run_backtest download to_datetime sigs inv days = Ok results ∨
  StreamlitApp.run_backtest_df download to_datetime sigs inv days = Ok results →
  ∀ r d, r ∈ results → entry_date r = Some d ∨ exit_date r = Some d →
    signal_date r - 1 ≤ d ∧ d ≤ signal_date r + days + 3.
Proof.
  intros Hsource Hrun r d Hr Hd.
  destruct (run_outcomes _ _ _ _ _ _ Hrun)
    as (symbol_col & date_col & dts & Hdts & Hrows).
  apply list_elem_of_lookup in Hr as [k Hk].
  destruct (Forall2_lookup_r _ _ _ _ _ Hrows Hk) as ([row sig_dt] & _ & Hout).
  simpl in Hout. revert Hout. generalize (strip (row symbol_col)). intros sym Hout.
  assert (∀ hist label,
    Backtest.get_prices download sym (sig_dt - timedelta 1)
      (sig_dt + timedelta (days + 3)) = Some hist →
    label ∈ index hist →
    date_of sig_dt - 1 ≤ date_of label ∧ date_of label ≤ date_of sig_dt + days + 3)
    as Hwin.
  { intros hist label (t & df & Hdf & ->)%get_prices_served Hlabel.
    apply served_dates in Hlabel as (q & Hq & <-).
    apply Hsource in Hdf. rewrite Forall_forall in Hdf.
    specialize (Hdf _ Hq). simpl in Hdf. rewrite date_of_minus_day in Hdf.
    replace (date_of (sig_dt + timedelta (days + 3) + timedelta 1))
      with (date_of sig_dt + (days + 3) + 1) in Hdf; [lia|].
    unfold date_of, timedelta.
    replace (sig_dt + (days + 3) * day_ticks + 1 * day_ticks)
      with (sig_dt + (days + 3 + 1) * day_ticks) by lia.
    rewrite Z.div_add by done. lia. }
  assert (∀ hist e e_price x_date x_price,
    find_entry_exit hist sig_dt days = Ok (Some e, e_price, x_date, x_price) →
    e ∈ index hist ∧ ∀ x, x_date = Some x → x ∈ index hist) as Hlabels.
  { intros hist e e_price x_date x_price
      (rest & i & _ & Hi & Hx)%find_entry_exit_inv.
    split; [by eapply list_elem_of_lookup_2|].
    intros x Hx'. by destruct (py_getitem_Ok_inv _ _ _ (Hx x Hx')). }
  destruct (row_outcome_trade _ _ _ _ _ _ Hout)
    as [Hsig [[He Hx]|(h & e & e_price & x_date & x_price & Hget & Hfind & He & Hx)]].
  { rewrite He, Hx in Hd. by destruct Hd. }
  destruct (Hlabels _ _ _ _ _ Hfind) as [Hin Hin'].
  rewrite Hsig, He, Hx in *.
  destruct Hd as [[= <-]|Hd]; [by eapply Hwin|].
  destruct x_date as [x|]; simplify_eq/=. eapply Hwin; eauto.
Qed.

Lemma scenario_source_honest t s e df :
  scenario_source t s e = FetchFrame df →
  Forall (λ q, s ≤ date_of (q_date q) ∧ date_of (q_date q) < e) df.
Proof.
  unfold scenario_source. repeat case_decide; intros; simplify_eq.
  apply Forall_forall. by intros q [Hq _]%list_elem_of_filter.
Qed.

Lemma dates_within_window_witness :
  Forall
    (λ r, ∀ d, entry_date r = Some d ∨ exit_date r = Some d →
            signal_date r - 1 ≤ d ∧ d ≤ signal_date r + 2 + 3)
    scenario_results.
Proof.
  apply Forall_forall. intros r Hr d.
  apply (dates_within_window scenario_source scenario_to_datetime
           scenario_signals 1000%float 2 scenario_results); [| |done].
  - apply scenario_source_honest.
  - left. vm_compute. reflexivity.
Defined.

(** ** Failure of a row, and the two front ends side by side *)

Lemma mapM_result_first_error {A B} (f : A → result B) done_ x rest e :
  Forall (λ y, ∃ r, f y = Ok r) done_ → f x = Raise e →
  mapM f (done_ ++ x :: rest) = Raise e.
Proof.
  induction 1 as [|y done_ [r Hy] _ IH]; intros Hx.
  - by rewrite app_nil_l, mapM_result_cons, Hx.
  - rewrite <- app_comm_cons, mapM_result_cons, Hy, bind_Ok, IH by done. done.
Qed.

(** X6. Nothing catches an exception raised while a row is processed: when
    the rows before it are processed and one row raises, the whole run
    raises that exception and returns no row at all. *)
Theorem row_error_aborts_run
    download to_datetime sigs inv days symbol_col date_col dts done_ entry rest e :
  Backtest.detect_columns (columns sigs) = Ok (symbol_col, date_col) →
  to_datetime ((λ row, row date_col) <$> rows sigs) = Some dts →
  zip (rows sigs) dts = done_ ++ entry :: rest →
  (Forall (λ x, ∃ r, cli_row download symbol_col inv days x = Ok r) done_ →
   cli_row download symbol_col inv days entry = Raise e →
   Backtest.run_backtest download to_datetime sigs inv days = Raise e) ∧
  (Forall (λ x, ∃ r, app_row download symbol_col inv days x = Ok r) done_ →
   app_row download symbol_col inv days entry = Raise e →
   StreamlitApp.run_backtest_df download to_datetime sigs inv days = Raise e).
Proof.
  intros Hdet Hdts Hzip.
  assert (StreamlitApp.detect_columns (columns sigs)
          = (Some symbol_col, Some date_col)) as Hdet'.
  { revert Hdet. unfold Backtest.detect_columns, StreamlitApp.detect_columns.
    cbv zeta.
    destruct (first_present symbol_names _), (first_present date_names _);
      intros; simplify_eq; done. }
  split; intros Hdone Hentry.
  - unfold Backtest.run_backtest.
    rewrite Hdet, bind_Ok, Hdts, cli_loop_mapM, Hzip.
    by rewrite (mapM_result_first_error _ _ _ _ e).
  - unfold StreamlitApp.run_backtest_df.
    rewrite Hdet', Hdts, app_loop_mapM, Hzip.
    by rewrite (mapM_result_first_error _ _ _ _ e).
Qed.

Lemma row_error_aborts_run_witness :
  Backtest.run_backtest faulty_source scenario_to_datetime
    faulty_signals 1000%float 2 = Raise TypeError.
Proof.
  destruct (row_error_aborts_run faulty_source scenario_to_datetime
              faulty_signals 1000%float 2 "Ticker" "Date"
              [on_day 19725; on_day 19725; on_day 19730]
              [(scenario_row "ACME" "03-01-2024", on_day 19725)]
              (scenario_row "DUP" "03-01-2024", on_day 19725)
              [(scenario_row "ACME" "08-01-2024", on_day 19730)]
              TypeError) as [Hcli _].
  - vm_compute. reflexivity.
  - vm_compute. reflexivity.
  - reflexivity.
  - apply Hcli.
    + constructor; [|constructor]. eexists. vm_compute. reflexivity.
    + vm_compute. reflexivity.
Defined.

(** What the second front end does with a row the first one completes. *)
Lemma cli_build_result_app sym sig_dt inv days hist r :
  Backtest.build_result sym sig_dt inv days hist = Ok r →
  (StreamlitApp.build_result sym sig_dt inv days hist = Ok r ∧ ¬ zero_entry r) ∨
  (StreamlitApp.build_result sym sig_dt inv days hist = Raise ZeroDivisionError ∧
   zero_entry r).
Proof.
  unfold Backtest.build_result, StreamlitApp.build_result, zero_entry,
    resolved_state.
  destruct hist as [hist|].
  2:{ intros; simplify_eq. left. split; [done|].
      by intros [(_ & _ & _ & _ & _ & _ & [=]) _]. }
  destruct (find_entry_exit hist sig_dt days) as [t|] eqn:Hfind;
    bind_step; [|done].
  destruct (find_entry_exit_cases _ _ _ _ Hfind)
    as [->|[(e_date & e_price & ->)|(e_date & e_price & x_date & x_price & -> & Hx)]].
  - simpl. intros; simplify_eq. left. split; [done|].
    by intros [(_ & _ & _ & _ & _ & _ & [=]) _].
  - simpl. intros; simplify_eq. left. split; [done|].
    by intros [(_ & _ & _ & _ & _ & _ & [=]) _].
  - destruct (loc_close_cases _ _ _ Hx) as [[x ->]|(l & -> & Hl)].
    + simpl. intros; simplify_eq. unfold py_div.
      destruct (PrimFloat.eqb e_price 0) eqn:Hzero; simpl.
      * right. split; [done|]. split; [split_and!; eauto|]. by exists e_price.
      * left. split; [done|]. intros [_ (ep & [= <-] & Hep)]. congruence.
    + destruct l as [|? [|? ?]]; simpl in Hl; [lia|lia|done].
Qed.

Lemma app_build_result_cli sym sig_dt inv days hist r :
  StreamlitApp.build_result sym sig_dt inv days hist = Ok r →
  Backtest.build_result sym sig_dt inv days hist = Ok r.
Proof.
  unfold Backtest.build_result, StreamlitApp.build_result.
  destruct hist as [hist|]; [|done].
  destruct (find_entry_exit hist sig_dt days) as [t|] eqn:Hfind;
    bind_step; [|done].
  destruct (find_entry_exit_cases _ _ _ _ Hfind)
    as [->|[(e_date & e_price & ->)|(e_date & e_price & x_date & x_price & -> & Hx)]];
    [done|done|].
  destruct (loc_close_cases _ _ _ Hx) as [[x ->]|(l & -> & Hl)].
  - simpl. unfold py_div. by destruct (PrimFloat.eqb e_price 0).
  - destruct l as [|? [|? ?]]; simpl in Hl; [lia|lia|done].
Qed.

Lemma cli_row_app download symbol_col inv days entry r :
  cli_row download symbol_col inv days entry = Ok r →
  (app_row download symbol_col inv days entry = Ok r ∧ ¬ zero_entry r) ∨
  (app_row download symbol_col inv days entry = Raise ZeroDivisionError ∧
   zero_entry r).
Proof.
  unfold cli_row, app_row. cbv zeta. rewrite app_get_prices_fst.
  apply cli_build_result_app.
Qed.

Lemma app_row_cli download symbol_col inv days entry r :
  app_row download symbol_col inv days entry = Ok r →
  cli_row download symbol_col inv days entry = Ok r.
Proof.
  unfold cli_row, app_row. cbv zeta. rewrite app_get_prices_fst.
  apply app_build_result_cli.
Qed.

Lemma detect_columns_both cols symbol_col date_col :
  Backtest.detect_columns cols = Ok (symbol_col, date_col) ↔
  StreamlitApp.detect_columns cols = (Some symbol_col, Some date_col).
Proof.
  unfold Backtest.detect_columns, StreamlitApp.detect_columns. cbv zeta.
  destruct (first_present symbol_names _), (first_present date_names _);
    split; intros; simplify_eq; done.
Qed.

(** X7. Whatever [run_backtest_df] returns, [run_backtest] returns the same
    rows for the same table, amount, holding period and data source. *)
Theorem app_results_are_cli_results download to_datetime sigs inv days results :
  StreamlitApp.run_backtest_df download to_datetime sigs inv days = Ok results →
  Backtest.run_backtest download to_datetime sigs inv days = Ok results.
Proof.
  intros (symbol_col & date_col & dts & Hdet & Hdts & Hrows)%app_run_rows.
  apply detect_columns_both in Hdet.
  unfold Backtest.run_backtest.
  rewrite Hdet, bind_Ok, Hdts, cli_loop_mapM.
  assert (mapM (cli_row download symbol_col inv days) (zip (rows sigs) dts)
          = Ok results) as ->; [|done].
  apply mapM_result_Forall2. eapply Forall2_impl; [done|].
  intros entry r. apply app_row_cli.
Qed.

Lemma app_results_are_cli_results_witness :
  Backtest.run_backtest scenario_source scenario_to_datetime
    scenario_signals 1000%float 2 = Ok scenario_results.
Proof.
  apply app_results_are_cli_results. vm_compute. reflexivity.
Defined.

Lemma cli_rows_app download symbol_col inv days todo results :
  Forall2 (λ entry r, cli_row download symbol_col inv days entry = Ok r)
    todo results →
  (Forall (λ r, ¬ zero_entry r) results ∧
   mapM (app_row download symbol_col inv days) todo = Ok results) ∨
  (Exists zero_entry results ∧
   mapM (app_row download symbol_col inv days) todo = Raise ZeroDivisionError).
Proof.
  induction 1 as [|entry r todo results Hrow _ IH]; [by left|].
  rewrite mapM_result_cons.
  destruct (cli_row_app _ _ _ _ _ _ Hrow) as [[-> Hnz]|[-> Hz]]; bind_step.
  - destruct IH as [[Hall ->]|[Hex ->]]; bind_step.
    + left. split; [by constructor|done].
    + right. split; [by apply Exists_cons_tl|done].
  - right. split; [by apply Exists_cons_hd|done].
Qed.

(** X8. For a table [run_backtest] completes, [run_backtest_df] returns the
    same rows exactly when no fully resolved row has a zero entry price;
    when one has, it raises ZeroDivisionError, the division being one of
    Python floats there and of numpy floats in [run_backtest]. *)
Theorem zero_entry_price_divides download to_datetime sigs inv days results :
  Backtest.run_backtest download to_datetime sigs inv days = Ok results →
  (Forall (λ r, ¬ zero_entry r) results ∧
   StreamlitApp.run_backtest_df download to_datetime sigs inv days = Ok results) ∨
  (Exists zero_entry results ∧
   StreamlitApp.run_backtest_df download to_datetime sigs inv days
   = Raise ZeroDivisionError).
Proof.
  intros (symbol_col & date_col & dts & Hdet & Hdts & Hrows)%cli_run_rows.
  apply detect_columns_both in Hdet.
  unfold StreamlitApp.run_backtest_df. rewrite Hdet, Hdts, app_loop_mapM.
  destruct (cli_rows_app _ _ _ _ _ _ Hrows) as [[Hall ->]|[Hex ->]];
    bind_step; [left|right]; done.
Qed.

Lemma zero_entry_price_divides_witness :
  (∃ results,
     Backtest.run_backtest faulty_source scenario_to_datetime
       zero_signals 1000%float 2 = Ok results ∧ length results = 2%nat) ∧
  StreamlitApp.run_backtest_df faulty_source scenario_to_datetime
    zero_signals 1000%float 2 = Raise ZeroDivisionError.
Proof.
  destruct (Backtest.run_backtest faulty_source scenario_to_datetime
              zero_signals 1000%float 2) as [results|] eqn:Hrun;
    [|vm_compute in Hrun; discriminate Hrun].
  split.
  - exists results. split; [done|]. vm_compute in Hrun. by injection Hrun as <-.
  - destruct (zero_entry_price_divides _ _ _ _ _ _ Hrun) as [[_ Happ]|[_ Happ]];
      [|done].
    vm_compute in Happ. discriminate Happ.
Defined.

(** ** More on the provider *)

Lemma close_only_length df : length (close_only (sort_index df)) = length df.
Proof.
  unfold close_only, sort_index.
  by rewrite length_fmap, merge_sort_Permutation.
Qed.

(** X9. A series returned by [get_prices] is never empty, has one bar per
    row of the frame fetched for one of the three candidates, and no
    earlier candidate had rows. *)
Theorem get_prices_nonempty download sym start end_ hist :
  Backtest.get_prices download sym start end_ = Some hist →
  hist ≠ [] ∧
  ∃ k t df,
    candidates sym !! k = Some t ∧
    download t (date_of start) (date_of (end_ + timedelta 1)) = FetchFrame df ∧
    hist = close_only (sort_index df) ∧ length hist = length df ∧
    ∀ j t', (j < k)%nat → candidates sym !! j = Some t' →
      frame_of (download t' (date_of start) (date_of (end_ + timedelta 1))) = [].
Proof.
  unfold Backtest.get_prices, candidates. rewrite !get_prices_from_cons. simpl.
  set (s := date_of start). set (e := date_of (end_ + timedelta 1)).
  assert (∀ t, frame_of (download t s e) ≠ [] →
            ∃ df, download t s e = FetchFrame df ∧ df ≠ [] ∧
                  frame_of (download t s e) = df) as Hframe.
  { intros t Hne. destruct (download t s e) as [| |df]; try done. by exists df. }
  repeat case_decide; intros Hget; simplify_eq;
    match goal with
    | H : frame_of (download ?t s e) ≠ [] |- _ =>
        destruct (Hframe t H) as (df & Hdf & Hne & Heq); rewrite Heq
    end.
  - split; [by intros Hnil%(f_equal length); rewrite close_only_length in Hnil;
            destruct df|].
    exists 2%nat, sym, df. split_and!; [done..|by rewrite close_only_length|].
    intros [|[|j]] t' Hj Ht'; simplify_eq/=; [done|done|lia].
  - split; [by intros Hnil%(f_equal length); rewrite close_only_length in Hnil;
            destruct df|].
    exists 1%nat, (sym +:+ ".BO"), df.
    split_and!; [done..|by rewrite close_only_length|].
    intros [|j] t' Hj Ht'; simplify_eq/=; [done|lia].
  - split; [by intros Hnil%(f_equal length); rewrite close_only_length in Hnil;
            destruct df|].
    exists 0%nat, (sym +:+ ".NS"), df.
    split_and!; [done..|by rewrite close_only_length|].
    intros j t' Hj. lia.
Qed.

Lemma get_prices_nonempty_witness :
  Backtest.get_prices scenario_source "ACME" (on_day 19724) (on_day 19730)
  = Some scenario_series ∧ scenario_series ≠ [].
Proof.
  assert (Backtest.get_prices scenario_source "ACME" (on_day 19724) (on_day 19730)
          = Some scenario_series) as Hget by (vm_compute; reflexivity).
  split; [done|].
  by destruct (get_prices_nonempty _ _ _ _ _ Hget) as [Hne _].
Defined.

(** X10. [get_prices_for_symbol] returns the series [get_prices] returns;
    its second component is the ticker that served it, one of the three
    candidates, and is None exactly when the series is. *)
Theorem get_prices_for_symbol_used download sym start end_ hist used :
  StreamlitApp.get_prices_for_symbol download sym start end_ = (hist, used) →
  hist = Backtest.get_prices download sym start end_ ∧
  (hist = None ↔ used = None) ∧
  ∀ t, used = Some t →
    t ∈ candidates sym ∧
    ∃ df, download t (date_of start) (date_of (end_ + timedelta 1))
          = FetchFrame df ∧ df ≠ [] ∧
          hist = Some (close_only (sort_index df)).
Proof.
  intros Hret. split.
  { by rewrite <- app_get_prices_fst, Hret. }
  revert Hret.
  unfold StreamlitApp.get_prices_for_symbol, candidates.
  rewrite !app_get_prices_from_cons. simpl.
  set (s := date_of start). set (e := date_of (end_ + timedelta 1)).
  assert (∀ t, frame_of (download t s e) ≠ [] →
            ∃ df, download t s e = FetchFrame df ∧ df ≠ [] ∧
                  frame_of (download t s e) = df) as Hframe.
  { intros t Hne. destruct (download t s e) as [| |df]; try done. by exists df. }
  repeat case_decide; intros Hget; simplify_eq; (split; [done|]);
    intros t [= <-];
    match goal with
    | H : frame_of (download ?t s e) ≠ [] |- _ =>
        destruct (Hframe t H) as (df & Hdf & Hne & Heq); rewrite Heq
    end;
    (split; [|by exists df]); rewrite !elem_of_cons; auto.
Qed.

Lemma get_prices_for_symbol_used_witness :
  StreamlitApp.get_prices_for_symbol scenario_source "ACME"
    (on_day 19724) (on_day 19730)
  = (Some scenario_series, Some "ACME.NS") ∧
  "ACME.NS" ∈ candidates "ACME".
Proof.
  assert (StreamlitApp.get_prices_for_symbol scenario_source "ACME"
            (on_day 19724) (on_day 19730)
          = (Some scenario_series, Some "ACME.NS")) as Hget
    by (vm_compute; reflexivity).
  split; [done|].
  destruct (get_prices_for_symbol_used _ _ _ _ _ _ Hget) as (_ & _ & Hused).
  by destruct (Hused _ eq_refl) as [Hin _].
Defined.

(** ** More on column detection *)

Lemma detected_member names cols c :
  detected names cols (Some c) → c ∈ cols ∧ lower c ∈ names.
Proof.
  intros (name & (k & Hk & _) & Hlast).
  apply last_Some_elem_of, list_elem_of_filter in Hlast as [<- Hin].
  split; [done|]. by eapply list_elem_of_lookup_2.
Qed.

(** X11. The two columns [detect_columns] returns are columns of the
    table, spell an accepted symbol name and an accepted date name once
    lower-cased, and are never the same column. *)
Theorem detect_columns_distinct cols symbol_col date_col :
  Backtest.detect_columns cols = Ok (symbol_col, date_col) →
  symbol_col ∈ cols ∧ date_col ∈ cols ∧
  lower symbol_col ∈ ["symbol"; "stock"; "ticker"] ∧
  lower date_col ∈ ["date"; "signal_date"] ∧
  symbol_col ≠ date_col.
Proof.
  intros Hdet.
  pose proof (first_present_detected symbol_names cols) as Hs.
  pose proof (first_present_detected date_names cols) as Hd.
  revert Hdet Hs Hd. unfold Backtest.detect_columns. cbv zeta.
  destruct (first_present symbol_names _) as [s|],
    (first_present date_names _) as [d|]; intros; simplify_eq.
  destruct (detected_member _ _ _ Hs) as [Hs1 Hs2].
  destruct (detected_member _ _ _ Hd) as [Hd1 Hd2].
  split_and!; [done..|]. intros <-.
  unfold symbol_names, date_names in *.
  rewrite !elem_of_cons, elem_of_nil in Hs2.
  rewrite !elem_of_cons, elem_of_nil in Hd2.
  destruct Hs2 as [Hs2|[Hs2|[Hs2|[]]]], Hd2 as [Hd2|[Hd2|[]]];
    rewrite Hs2 in Hd2; discriminate Hd2.
Qed.

Lemma detect_columns_distinct_witness :
  Backtest.detect_columns ["Price"; "TICKER"; "Signal_Date"; "Ticker"]
  = Ok ("Ticker", "Signal_Date") ∧
  "Ticker" ≠ "Signal_Date".
Proof.
  assert (Backtest.detect_columns ["Price"; "TICKER"; "Signal_Date"; "Ticker"]
          = Ok ("Ticker", "Signal_Date")) as Hdet by (vm_compute; reflexivity).
  split; [done|].
  by destruct (detect_columns_distinct _ _ _ Hdet) as (_ & _ & _ & _ & Hne).
Defined.

(** ** More on the loops *)

(** X12. The loop of [run_backtest] only appends: the rows collected so far
    are a prefix of the rows returned, one row is added per signal, and the
    content of [cache] has no effect on the outcome. *)
Theorem loop_only_appends download symbol_col inv days todo results cache out :
  Backtest.backtest_loop download symbol_col inv days todo results cache
  = Ok out →
  results `prefix_of` out ∧
  length out = (length results + length todo)%nat ∧
  ∀ cache',
    Backtest.backtest_loop download symbol_col inv days todo results cache'
    = Ok out.
Proof.
  rewrite cli_loop_mapM.
  destruct (mapM _ todo) as [new|] eqn:Hnew; bind_step; [|done].
  intros [= <-]. split_and!.
  - by apply prefix_app_r.
  - apply mapM_result_Forall2, Forall2_length in Hnew.
    rewrite length_app. lia.
  - intros cache'. by rewrite cli_loop_mapM, Hnew.
Qed.

Lemma loop_only_appends_witness :
  ∃ out,
    Backtest.backtest_loop scenario_source "Ticker" 1000%float 2
      [(scenario_row "FAIL" "03-01-2024", on_day 19725)]
      [no_entry_row "ACME" (on_day 19731) 1000%float] ∅ = Ok out ∧
    [no_entry_row "ACME" (on_day 19731) 1000%float] `prefix_of` out ∧
    length out = 2%nat.
Proof.
  destruct (Backtest.backtest_loop scenario_source "Ticker" 1000%float 2
              [(scenario_row "FAIL" "03-01-2024", on_day 19725)]
              [no_entry_row "ACME" (on_day 19731) 1000%float] ∅)
    as [out|] eqn:Hloop; [|vm_compute in Hloop; discriminate Hloop].
  exists out.
  destruct (loop_only_appends _ _ _ _ _ _ _ _ Hloop) as (Hpre & Hlen & _).
  split_and!; done.
Defined.

(** ** Notes *)

Lemma row_outcome_note sym sig_dt inv days hist r :
  row_outcome sym sig_dt inv days hist r →
  (note r = "no price data" ↔ hist = None) ∧
  (note r = "no entry" ↔
     ∃ h, hist = Some h ∧ Forall (λ b, bar_date b < sig_dt) h) ∧
  (note r = "no exit (insufficient data)" ↔
     is_Some (entry_price r) ∧ exit_price r = None) ∧
  (note r = EmptyString ↔ is_Some (return_pct r) ∧ is_Some (profit r)).
Proof.
  destruct 1 as [|hist Hfind|hist e_date e_price Hfind
                 |hist e_date e_price x_date x_price Hfind]; simpl;
    split_and!; split; try done.
  - by intros (h & [=] & _).
  - by intros [[? [=]] _].
  - by intros [[? [=]] _].
  - intros _. exists hist. split; [done|].
    by eapply find_entry_exit_no_entry_inv.
  - by intros [[? [=]] _].
  - by intros [[? [=]] _].
  - intros (h & [= <-] & Hall).
    rewrite find_entry_exit_no_entry in Hfind by done. done.
  - by intros [[? [=]] _].
  - intros (h & [= <-] & Hall).
    rewrite find_entry_exit_no_entry in Hfind by done. done.
  - by intros [_ [=]].
Qed.

(** X13. In a completed run the note tells the outcome of its row: "no
    price data" exactly when the provider returned no series for the
    signal, "no entry" exactly when it returned a series with no bar on or
    after the signal, "no exit (insufficient data)" exactly when the row
    has an entry price and no exit price, and the empty note exactly when
    return and profit are set. *)
Theorem note_tells_outcome download to_datetime sigs inv days results :
  Backtest.run_backtest download to_datetime sigs inv days = Ok results ∨
  StreamlitApp.run_backtest_df download to_datetime sigs inv days = Ok results →
  ∃ symbol_col date_col dts,
    to_datetime ((λ row, row date_col) <$> rows sigs) = Some dts ∧
    Forall2
      (λ entry r,
         let hist :=
           Backtest.get_prices download (strip (entry.1 symbol_col))
             (entry.2 - timedelta 1) (entry.2 + timedelta (days + 3)) in
         (note r = "no price data" ↔ hist = None) ∧
         (note r = "no entry" ↔
            ∃ h, hist = Some h ∧ Forall (λ b, bar_date b < entry.2) h) ∧
         (note r = "no exit (insufficient data)" ↔
            is_Some (entry_price r) ∧ exit_price r = None) ∧
         (note r = EmptyString ↔ is_Some (return_pct r) ∧ is_Some (profit r)))
      (zip (rows sigs) dts) results.
Proof.
  intros Hrun.
  destruct (run_outcomes _ _ _ _ _ _ Hrun)
    as (symbol_col & date_col & dts & Hdts & Hrows).
  exists symbol_col, date_col, dts. split; [done|].
  eapply Forall2_impl; [done|]. intros entry r Hout. cbv zeta.
  simpl in Hout. exact (row_outcome_note _ _ _ _ _ _ Hout).
Qed.

Lemma note_tells_outcome_witness :
  ∃ symbol_col date_col dts,
    scenario_to_datetime ((λ row, row date_col) <$> rows scenario_signals)
    = Some dts ∧
    Forall2
      (λ entry r,
         let hist :=
           Backtest.get_prices scenario_source (strip (entry.1 symbol_col))
             (entry.2 - timedelta 1) (entry.2 + timedelta (2 + 3)) in
         (note r = "no price data" ↔ hist = None) ∧
         (note r = "no entry" ↔
            ∃ h, hist = Some h ∧ Forall (λ b, bar_date b < entry.2) h) ∧
         (note r = "no exit (insufficient data)" ↔
            is_Some (entry_price r) ∧ exit_price r = None) ∧
         (note r = EmptyString ↔ is_Some (return_pct r) ∧ is_Some (profit r)))
      (zip (rows scenario_signals) dts) scenario_results.
Proof.
  apply (note_tells_outcome scenario_source scenario_to_datetime
           scenario_signals 1000%float 2 scenario_results).
  left. vm_compute. reflexivity.
Defined.

(** ** More on the formatters *)

Lemma apply_column_spec name f (df df' : gmap string (list value)) :
  apply_column name f df = Ok df' →
  column_mapped f (df !! name) (df' !! name) ∧
  ∀ k, k ≠ name → df' !! k = df !! k.
Proof.
  unfold apply_column, column_mapped.
  destruct (df !! name) as [col|] eqn:Hcol.
  - destruct (mapM f col) as [col'|] eqn:Hmap; bind_step; [|done].
    intros [= <-]. rewrite lookup_insert_eq. split.
    + constructor. by apply mapM_result_Forall2.
    + intros k Hk. by rewrite lookup_insert_ne.
  - intros [= <-]. rewrite Hcol. split; [constructor|done].
Qed.

Lemma format_with_spec g (df df' : gmap string (list value)) :
  format_with g df = Ok df' →
  (∀ name, name ∈ price_columns →
     column_mapped fmt_price (df !! name) (df' !! name)) ∧
  column_mapped g (df !! "return_pct") (df' !! "return_pct") ∧
  (∀ name, name ∉ "return_pct" :: price_columns → df' !! name = df !! name).
Proof.
  unfold format_with.
  destruct (apply_column "entry_price" _ df) as [df1|] eqn:H1; bind_step; [|done].
  destruct (apply_column "exit_price" _ df1) as [df2|] eqn:H2; bind_step; [|done].
  destruct (apply_column "profit" _ df2) as [df3|] eqn:H3; bind_step; [|done].
  destruct (apply_column "investment" _ df3) as [df4|] eqn:H4; bind_step; [|done].
  intros H5.
  apply apply_column_spec in H1 as [M1 O1], H2 as [M2 O2], H3 as [M3 O3],
    H4 as [M4 O4], H5 as [M5 O5].
  split_and!.
  - unfold price_columns. intros name Hname.
    rewrite !elem_of_cons, elem_of_nil in Hname.
    destruct Hname as [->|[->|[->|[->|[]]]]].
    + by rewrite (O5 "entry_price"), (O4 "entry_price"), (O3 "entry_price"),
        (O2 "entry_price").
    + by rewrite (O5 "exit_price"), (O4 "exit_price"), (O3 "exit_price"),
        <- (O1 "exit_price").
    + by rewrite (O5 "profit"), (O4 "profit"), <- (O1 "profit"),
        <- (O2 "profit").
    + by rewrite (O5 "investment"), <- (O1 "investment"),
        <- (O2 "investment"), <- (O3 "investment").
  - by rewrite <- (O1 "return_pct"), <- (O2 "return_pct"),
      <- (O3 "return_pct"), <- (O4 "return_pct").
  - unfold price_columns. intros name Hname.
    rewrite !not_elem_of_cons in Hname.
    destruct Hname as (? & ? & ? & ? & ? & _).
    by rewrite (O5 name), (O4 name), (O3 name), (O2 name), (O1 name).
Qed.

Lemma fmt_price_text v v' : fmt_price v = Ok v' → is_text v'.
Proof.
  unfold fmt_price. destruct (isnull v); [intros [= <-]; by eexists|].
  destruct v; intros; simplify_eq. by eexists.
Qed.

Lemma fmt_pct_text float_of_text v v' :
  FormatResults.fmt_pct float_of_text v = Ok v' ∨
  StreamlitApp.fmt_pct float_of_text v = Ok v' → is_text v'.
Proof.
  unfold FormatResults.fmt_pct, StreamlitApp.fmt_pct.
  destruct v as [|f|s]; simpl.
  - intros [[= <-]|[= <-]]; by eexists.
  - destruct (PrimFloat.is_nan f); intros [[= <-]|[= <-]]; by eexists.
  - destruct (float_of_text s); intros [[= <-]|H]; simplify_eq; by eexists.
Qed.

Lemma column_mapped_length f before after :
  column_mapped f before after → length <$> after = length <$> before.
Proof.
  destruct 1 as [col col' Hcols|]; [|done]. simpl.
  by rewrite (Forall2_length _ _ _ Hcols).
Qed.

(** X14. Formatting adds and removes no column and no row, leaves every
    column other than the five formatted ones as it was, and leaves only
    text in the five; this holds for any table either formatter accepts. *)
Theorem format_keeps_shape float_of_text (df df' : gmap string (list value)) :
  FormatResults.format_csv float_of_text df = Ok df' ∨
  StreamlitApp.format_results float_of_text df = Ok df' →
  (∀ name, length <$> df' !! name = length <$> df !! name) ∧
  (∀ name, name ∉ "return_pct" :: price_columns → df' !! name = df !! name) ∧
  (∀ name col', name ∈ "return_pct" :: price_columns →
     df' !! name = Some col' → Forall is_text col').
Proof.
  intros Hfmt.
  assert (∃ g, format_with g df = Ok df' ∧
               ∀ v v', g v = Ok v' → is_text v') as (g & Hg & Htext).
  { destruct Hfmt as [Hfmt|Hfmt].
    - exists (FormatResults.fmt_pct float_of_text). split; [done|].
      intros v v' Hv. eapply fmt_pct_text. by left.
    - exists (StreamlitApp.fmt_pct float_of_text). split; [done|].
      intros v v' Hv. eapply fmt_pct_text. by right. }
  destruct (format_with_spec _ _ _ Hg) as (Hprice & Hpct & Hother).
  split_and!; [|done|].
  - intros name.
    destruct (decide (name ∈ price_columns)) as [Hin|Hnin];
      [exact (column_mapped_length _ _ _ (Hprice _ Hin))|].
    destruct (decide (name = "return_pct")) as [->|Hne];
      [exact (column_mapped_length _ _ _ Hpct)|].
    rewrite Hother; [done|]. by intros [->|?]%elem_of_cons.
  - intros name col' [->|Hname]%elem_of_cons Hcol'.
    + unfold column_mapped in Hpct. rewrite Hcol' in Hpct.
      inversion Hpct as [col ? Hcols|]; subst.
      apply Forall_forall. intros v' Hv'.
      apply list_elem_of_lookup in Hv' as [i Hi].
      destruct (Forall2_lookup_r _ _ _ _ _ Hcols Hi) as (v & _ & Hv). eauto.
    + specialize (Hprice _ Hname). unfold column_mapped in Hprice.
      rewrite Hcol' in Hprice. inversion Hprice as [col ? Hcols|]; subst.
      apply Forall_forall. intros v' Hv'.
      apply list_elem_of_lookup in Hv' as [i Hi].
      destruct (Forall2_lookup_r _ _ _ _ _ Hcols Hi) as (v & _ & Hv).
      by eapply fmt_price_text.
Qed.

Lemma format_keeps_shape_witness :
  (∀ name, length <$> scenario_table_formatted !! name
           = length <$> scenario_table !! name) ∧
  scenario_table_formatted !! "symbol" = scenario_table !! "symbol".
Proof.
  destruct (format_keeps_shape (λ _, None) scenario_table
              scenario_table_formatted) as (Hlen & Hother & _).
  - left. vm_compute. reflexivity.
  - split; [done|]. apply Hother.
    unfold price_columns. rewrite !not_elem_of_cons.
    split_and!; try discriminate. apply not_elem_of_nil.
Defined.

Lemma mapM_result_total {A B} (f : A → result B) l :
  Forall (λ x, ∃ y, f x = Ok y) l → ∃ k, mapM f l = Ok k.
Proof.
  induction 1 as [|x l [y Hx] _ [k IH]]; [by exists []|].
  exists (y :: k). by rewrite mapM_result_cons, Hx, bind_Ok, IH.
Qed.

Lemma apply_column_ok name f (df : gmap string (list value)) :
  (∀ col, df !! name = Some col → Forall (λ v, ∃ v', f v = Ok v') col) →
  ∃ df', apply_column name f df = Ok df'.
Proof.
  intros Hcol. unfold apply_column.
  destruct (df !! name) as [col|]; [|by eexists].
  destruct (mapM_result_total f col) as [col' ->]; [by apply Hcol|].
  by eexists.
Qed.

Lemma fmt_price_ok v : (∃ v', fmt_price v = Ok v') ↔ numeric_or_null v.
Proof.
  unfold fmt_price. destruct v as [|f|s]; simpl.
  - split; [done|]. by eexists.
  - split; [done|]. intros _. destruct (PrimFloat.is_nan f); by eexists.
  - split; [by intros [? [=]]|done].
Qed.

Lemma format_with_ok g (df : gmap string (list value)) :
  prices_numeric df →
  (∀ col, df !! "return_pct" = Some col → Forall (λ v, ∃ v', g v = Ok v') col) →
  ∃ df', format_with g df = Ok df'.
Proof.
  intros Hprices Hpct. unfold format_with.
  assert (∀ name col, name ∈ price_columns → df !! name = Some col →
            Forall (λ v, ∃ v', fmt_price v = Ok v') col) as Hok.
  { intros name col Hname Hcol. eapply Forall_impl; [by eapply Hprices|].
    intros v. apply fmt_price_ok. }
  assert (∀ name, name ∈ price_columns ↔
            name = "entry_price" ∨ name = "exit_price" ∨ name = "profit"
            ∨ name = "investment") as Hnames.
  { intros name. unfold price_columns.
    rewrite !elem_of_cons, elem_of_nil. tauto. }
  destruct (apply_column_ok "entry_price" fmt_price df) as [df1 H1].
  { intros col. apply Hok, Hnames. tauto. }
  rewrite H1, bind_Ok. apply apply_column_spec in H1 as [_ O1].
  destruct (apply_column_ok "exit_price" fmt_price df1) as [df2 H2].
  { intros col. rewrite (O1 "exit_price") by done. apply Hok, Hnames. tauto. }
  rewrite H2, bind_Ok. apply apply_column_spec in H2 as [_ O2].
  destruct (apply_column_ok "profit" fmt_price df2) as [df3 H3].
  { intros col. rewrite (O2 "profit"), (O1 "profit") by done.
    apply Hok, Hnames. tauto. }
  rewrite H3, bind_Ok. apply apply_column_spec in H3 as [_ O3].
  destruct (apply_column_ok "investment" fmt_price df3) as [df4 H4].
  { intros col.
    rewrite (O3 "investment"), (O2 "investment"), (O1 "investment") by done.
    apply Hok, Hnames. tauto. }
  rewrite H4, bind_Ok. apply apply_column_spec in H4 as [_ O4].
  apply apply_column_ok. intros col.
  rewrite (O4 "return_pct"), (O3 "return_pct"), (O2 "return_pct"),
    (O1 "return_pct") by done.
  apply Hpct.
Qed.

Lemma format_with_prices_numeric g (df df' : gmap string (list value)) :
  format_with g df = Ok df' → prices_numeric df.
Proof.
  intros (Hprice & _ & _)%format_with_spec name col Hname Hcol.
  specialize (Hprice _ Hname). unfold column_mapped in Hprice.
  rewrite Hcol in Hprice. inversion Hprice as [? col' Hcols|]; subst.
  apply Forall_forall. intros v Hv.
  apply list_elem_of_lookup in Hv as [i Hi].
  destruct (Forall2_lookup_l _ _ _ _ _ Hcols Hi) as (v' & _ & Hv').
  apply fmt_price_ok. by exists v'.
Qed.

(** X15. [format_csv] succeeds exactly when the four price columns hold
    numbers or nulls, whatever the return column holds, since its
    [fmt_pct] hands back what it cannot convert; [format_results] needs in
    addition that every text cell of the return column converts to a
    float. *)
Theorem format_succeeds_when float_of_text (df : gmap string (list value)) :
  ((∃ df', FormatResults.format_csv float_of_text df = Ok df')
   ↔ prices_numeric df) ∧
  ((∃ df', StreamlitApp.format_results float_of_text df = Ok df')
   ↔ prices_numeric df ∧
     ∀ col, df !! "return_pct" = Some col →
       Forall (λ v, ∀ s, v = VText s → is_Some (float_of_text s)) col).
Proof.
  split; split.
  - intros [df' Hfmt]. by eapply format_with_prices_numeric.
  - intros Hprices. apply (format_with_ok _ _ Hprices).
    intros col _. apply Forall_forall. intros v _.
    unfold FormatResults.fmt_pct. destruct (isnull v); [by eexists|].
    by destruct v as [|f|s]; [| |destruct (float_of_text s)]; eexists.
  - intros [df' Hfmt]. split; [by eapply format_with_prices_numeric|].
    intros col Hcol.
    apply format_with_spec in Hfmt as (_ & Hpct & _).
    unfold column_mapped in Hpct. rewrite Hcol in Hpct.
    inversion Hpct as [? col' Hcols|]; subst.
    apply Forall_forall. intros v Hv s ->.
    apply list_elem_of_lookup in Hv as [i Hi].
    destruct (Forall2_lookup_l _ _ _ _ _ Hcols Hi) as (v' & _ & Hv').
    revert Hv'. unfold StreamlitApp.fmt_pct. simpl.
    by destruct (float_of_text s).
  - intros [Hprices Hpct]. apply (format_with_ok _ _ Hprices).
    intros col Hcol. eapply Forall_impl; [by apply Hpct|].
    intros v Hv. unfold StreamlitApp.fmt_pct.
    destruct (isnull v) eqn:Hnull; [by eexists|].
    destruct v as [|f|s]; [done|by eexists|].
    destruct (Hv s eq_refl) as [f ->]. by eexists.
Qed.

Lemma format_succeeds_when_witness :
  (∃ df', FormatResults.format_csv (λ _, None) reformatted_table = Ok df') ∧
  ¬ (∃ df', StreamlitApp.format_results (λ _, None) reformatted_table = Ok df').
Proof.
  destruct (format_succeeds_when (λ _, None) reformatted_table)
    as [[_ Hcsv] [Happ _]].
  split.
  - apply Hcsv. intros name col Hname. unfold price_columns in Hname.
    rewrite !elem_of_cons, elem_of_nil in Hname.
    destruct Hname as [->|[->|[->|[->|[]]]]]; vm_compute; intros [= <-].
    repeat constructor.
  - intros Hok. destruct (Happ Hok) as [_ Hpct].
    specialize (Hpct [VText "2.94%"; VNone] eq_refl).
    apply Forall_cons in Hpct as [Hcell _].
    by destruct (Hcell _ eq_refl).
Defined.

(** ** Rounding to hundredths *)

Lemma round_half_even_nearest num den :
  0 < den →
  2 * Z.abs (num - round_half_even num den * den) ≤ den ∧
  (2 * Z.abs (num - round_half_even num den * den) = den →
   Z.even (round_half_even num den) = true).
Proof.
  intros Hden. unfold round_half_even. cbv zeta.
  pose proof (Z.div_mod num den ltac:(lia)) as Hdm.
  pose proof (Z.mod_pos_bound num den Hden) as Hr.
  set (q := num `div` den) in *. set (r := num `mod` den) in *.
  assert (num - q * den = r) as Hq by lia.
  assert (num - (q + 1) * den = r - den) as Hq1 by lia.
  repeat case_bool_decide.
  - rewrite Hq. split; [lia|]. lia.
  - rewrite Hq1. split; [lia|]. lia.
  - destruct (Z.even q) eqn:Heven.
    + rewrite Hq. split; [lia|done].
    + rewrite Hq1. split; [lia|]. intros _.
      rewrite Z.add_1_r, Z.even_succ, <- Z.negb_even, Heven. done.
Qed.

Lemma round_half_even_nonneg num den :
  0 ≤ num → 0 < den → 0 ≤ round_half_even num den.
Proof.
  intros Hnum Hden. unfold round_half_even. cbv zeta.
  assert (0 ≤ num `div` den) as Hq by (apply Z.div_pos; lia).
  set (q := num `div` den) in *.
  repeat case_bool_decide; [lia|lia|]. destruct (Z.even q); lia.
Qed.

(** X16. The text printed for a finite non-zero float m * 2^e is its sign
    followed by a count of hundredths that is the integer nearest to
    100 * m * 2^e, the even one on a tie. *)
Theorem format_2f_nearest_hundredth f s m e :
  Prim2SF f = S754_finite s m e →
  let num := 100 * Z.pos m * 2 ^ Z.max 0 e in
  let den := 2 ^ Z.max 0 (- e) in
  ∃ h, 0 ≤ h ∧
    format_2f f = (if s then "-" else EmptyString) +:+ hundredths_text h ∧
    2 * Z.abs (num - h * den) ≤ den ∧
    (2 * Z.abs (num - h * den) = den → Z.even h = true).
Proof.
  intros Hf num den. unfold format_2f. rewrite Hf. subst num den.
  case_bool_decide as He.
  - exists (Z.pos m * 2 ^ e * 100).
    rewrite (Z.max_r 0 e), (Z.max_l 0 (- e)) by lia.
    assert (0 < 2 ^ e) by (apply Z.pow_pos_nonneg; lia).
    rewrite Z.pow_0_r. split_and!; [nia|done|lia|lia].
  - rewrite (Z.max_l 0 e), (Z.max_r 0 (- e)) by lia.
    assert (0 < 2 ^ (- e)) as Hden by (apply Z.pow_pos_nonneg; lia).
    exists (round_half_even (Z.pos m * 100) (2 ^ (- e))).
    rewrite Z.pow_0_r, Z.mul_1_r, (Z.mul_comm 100).
    destruct (round_half_even_nearest (Z.pos m * 100) (2 ^ (- e)) Hden)
      as [Hnear Htie].
    split_and!; [|done..]. apply round_half_even_nonneg; lia.
Qed.

Lemma format_2f_nearest_hundredth_witness :
  Prim2SF 0.125%float = S754_finite false 4503599627370496 (-55) ∧
  ∃ h, format_2f 0.125%float = EmptyString +:+ hundredths_text h ∧
    2 * Z.abs (100 * 4503599627370496 * 2 ^ 0 - h * 2 ^ 55) ≤ 2 ^ 55 ∧
    (2 * Z.abs (100 * 4503599627370496 * 2 ^ 0 - h * 2 ^ 55) = 2 ^ 55 →
     Z.even h = true).
Proof.
  assert (Prim2SF 0.125%float = S754_finite false 4503599627370496 (-55))
    as Hf by (vm_compute; reflexivity).
  split; [done|].
  destruct (format_2f_nearest_hundredth _ _ _ _ Hf) as (h & _ & Htext & Hnear).
  by exists h.
Defined.

(** ** Symbols *)

Lemma lstrip_first s c : first_char (lstrip s) = Some c → is_space c = false.
Proof.
  induction s as [|a s IH]; [done|]. simpl.
  destruct (is_space a) eqn:Ha; [done|]. by intros [= <-].
Qed.

Lemma lstrip_split s :
  ∃ pre, s = pre +:+ lstrip s ∧ all_space pre = true.
Proof.
  induction s as [|a s (pre & Hs & Hpre)]; [by exists EmptyString|]. simpl.
  destruct (is_space a) eqn:Ha.
  - exists (String a pre). split; [exact (f_equal (String a) Hs)|].
    simpl. by rewrite Ha.
  - by exists EmptyString.
Qed.

Lemma last_char_None s : last_char s = None → s = EmptyString.
Proof. destruct s as [|a s]; [done|]. simpl. by destruct (last_char s). Qed.

Lemma rstrip_last s c : last_char (rstrip s) = Some c → is_space c = false.
Proof.
  revert c. induction s as [|a s IH]; intros c; [done|]. simpl.
  destruct (rstrip s) as [|b t] eqn:Hr.
  - destruct (is_space a) eqn:Ha; [done|]. by intros [= <-].
  - change (last_char (String a (String b t)))
      with (match last_char (String b t) with None => Some a | Some d => Some d end).
    destruct (last_char (String b t)) as [d|] eqn:Hd.
    + intros [= <-]. by apply IH.
    + by apply last_char_None in Hd.
Qed.

Lemma rstrip_first s c :
  first_char s = Some c → is_space c = false → first_char (rstrip s) = Some c.
Proof.
  destruct s as [|a s]; [done|]. simpl. intros [= <-] Ha.
  destruct (rstrip s); [by rewrite Ha|done].
Qed.

Lemma rstrip_split s :
  ∃ post, s = rstrip s +:+ post ∧ all_space post = true.
Proof.
  induction s as [|a s (post & Hs & Hpost)]; [by exists EmptyString|]. simpl.
  destruct (rstrip s) as [|b t] eqn:Hr.
  - destruct (is_space a) eqn:Ha.
    + exists (String a post). split; [exact (f_equal (String a) Hs)|].
      simpl. by rewrite Ha.
    + exists post. split; [exact (f_equal (String a) Hs)|done].
  - exists post. split; [exact (f_equal (String a) Hs)|done].
Qed.

Lemma rstrip_fixed s :
  (∀ c, last_char s = Some c → is_space c = false) → rstrip s = s.
Proof.
  induction s as [|a s IH]; [done|]. simpl. intros Hlast.
  destruct (last_char s) as [d|] eqn:Hd.
  - rewrite IH by done. destruct s; [done|done].
  - apply last_char_None in Hd as ->. simpl. by rewrite (Hlast a).
Qed.

Lemma lstrip_fixed s :
  (∀ c, first_char s = Some c → is_space c = false) → lstrip s = s.
Proof. destruct s as [|a s]; [done|]. simpl. intros H. by rewrite (H a). Qed.

Lemma strip_trimmed s : trimmed (strip s).
Proof.
  unfold strip. split; [|apply rstrip_last].
  intros c. destruct (lstrip s) as [|a t] eqn:Hl; [done|].
  assert (is_space a = false) as Ha by (apply (lstrip_first s); by rewrite Hl).
  rewrite (rstrip_first _ a) by done. by intros [= <-].
Qed.

(** X17. The symbol written in every row of a completed run is the cell
    text with its surrounding whitespace removed and nothing else: it
    neither starts nor ends with whitespace, the cell is that symbol
    between two runs of whitespace, and trimming it again changes
    nothing. *)
Theorem result_symbols_are_trimmed download to_datetime sigs inv days results :
  Backtest.run_backtest download to_datetime sigs inv days = Ok results ∨
  StreamlitApp.run_backtest_df download to_datetime sigs inv days = Ok results →
  ∃ symbol_col date_col dts,
    to_datetime ((λ row, row date_col) <$> rows sigs) = Some dts ∧
    Forall2
      (λ entry r,
         trimmed (symbol r) ∧ strip (symbol r) = symbol r ∧
         ∃ pre post,
           entry.1 symbol_col = pre +:+ symbol r +:+ post ∧
           all_space pre = true ∧ all_space post = true)
      (zip (rows sigs) dts) results.
Proof.
  intros Hrun.
  destruct (run_outcomes _ _ _ _ _ _ Hrun)
    as (symbol_col & date_col & dts & Hdts & Hrows).
  exists symbol_col, date_col, dts. split; [done|].
  eapply Forall2_impl; [done|]. intros [row sig_dt] r Hout. simpl in *.
  destruct (row_outcome_keys _ _ _ _ _ _ Hout) as (-> & _ & _).
  pose proof (strip_trimmed (row symbol_col)) as [Hfirst Hlast].
  split_and!; [by split| |].
  - unfold strip at 1. by rewrite lstrip_fixed, rstrip_fixed.
  - destruct (lstrip_split (row symbol_col)) as (pre & Hpre & Hspace).
    destruct (rstrip_split (lstrip (row symbol_col))) as (post & Hpost & Hspace').
    exists pre, post. unfold strip. by rewrite <- Hpost, <- Hpre.
Qed.

Lemma result_symbols_are_trimmed_witness :
  ∃ symbol_col date_col dts,
    scenario_to_datetime ((λ row, row date_col) <$> rows scenario_signals)
    = Some dts ∧
    Forall2
      (λ entry r,
         trimmed (symbol r) ∧ strip (symbol r) = symbol r ∧
         ∃ pre post,
           entry.1 symbol_col = pre +:+ symbol r +:+ post ∧
           all_space pre = true ∧ all_space post = true)
      (zip (rows scenario_signals) dts) scenario_results.
Proof.
  apply (result_symbols_are_trimmed scenario_source scenario_to_datetime
           scenario_signals 1000%float 2 scenario_results).
  left. vm_compute. reflexivity.
Defined.
